(** * RFID reader: credential validation and actuation

    A shallow embedding of [rfid_reader.py].  The script reads credential
    identifiers line by line, asks the backend to verify (and, when needed,
    activate) them, and drives the door relay: five seconds HIGH for a grant,
    six short pulses for a denial.

    The world outside the script is made explicit:
    - the backend is an oracle giving, for the n-th request of the main
      thread, either a response or the exception [session.post] raises;
    - standard input is a list of lines, each read either yielding text or
      raising; reading past the end raises [EOFError], as [input()] does;
    - a signal (Ctrl+C) reaches the script while it is blocked: in [input()]
      and in [session.post] it is part of what the read or the request comes
      to; for the sleeps a schedule tells which of them a signal cuts short;
    - everything the script does to the world (prints, GPIO writes, sleeps,
      requests, thread starts) is recorded, in order, as a list of events.

    Durations are in milliseconds.  Where a statement names no schedule, no
    signal arrives during a sleep (instances [no_signal] and [calm]). *)

From Stdlib Require Import ZArith String Ascii List Bool Lia DecimalString.
From Stdlib Require Import PrimFloat.
Import ListNotations.

Local Open Scope string_scope.
Local Open Scope Z_scope.
Local Open Scope list_scope.

(** ** Python values, as [response.json()] produces them *)

#[warnings="-register-all"]
Inductive pyval : Type :=
| PyNone
| PyBool (b : bool)
| PyInt (n : Z)
| PyFloat (f : float)
| PyStr (s : string)
| PyList (items : list pyval)
| PyDict (fields : list (string * pyval)).

(** [bool(v)]: what [if v] and [not v] look at. *)
Definition truthy (v : pyval) : bool :=
  match v with
  | PyNone => false
  | PyBool b => b
  | PyInt n => negb (n =? 0)
  | PyFloat f => negb (PrimFloat.eqb f PrimFloat.zero)
  | PyStr s => negb (s =? "")%string
  | PyList items => match items with [] => false | _ :: _ => true end
  | PyDict fields => match fields with [] => false | _ :: _ => true end
  end.

(** [v is None] *)
Definition is_None (v : pyval) : bool :=
  match v with PyNone => true | _ => false end.

(** [v != s] for a string literal [s]: only an equal [str] compares equal. *)
Definition py_ne_str (v : pyval) (s : string) : bool :=
  match v with
  | PyStr s' => negb (s' =? s)%string
  | _ => true
  end.

(** Key lookup in a dict (keys of a parsed object are pairwise distinct). *)
Fixpoint dict_get (fields : list (string * pyval)) (key : string) : option pyval :=
  match fields with
  | [] => None
  | (k, v) :: rest => if (k =? key)%string then Some v else dict_get rest key
  end.

(** [d.get(key, default)] on a dict *)
Definition dict_get_default (fields : list (string * pyval)) (key : string)
    (default : pyval) : pyval :=
  match dict_get fields key with
  | Some x => x
  | None => default
  end.

(** ** Exceptions *)

Inductive exc : Type :=
| KeyboardInterrupt
| SystemExit (code : Z)
| EOFError
| AttributeError
| JSONDecodeError
| ValueError
| RequestException (kind : string)
| OtherException (name : string).

(** [except Exception]: everything but the [BaseException]-only classes. *)
Definition is_Exception (e : exc) : bool :=
  match e with
  | KeyboardInterrupt | SystemExit _ => false
  | _ => true
  end.

Definition is_KeyboardInterrupt (e : exc) : bool :=
  match e with KeyboardInterrupt => true | _ => false end.

(** [except ValueError]: the JSON decoding error is one in every release of
    the HTTP library. *)
Definition is_ValueError (e : exc) : bool :=
  match e with JSONDecodeError | ValueError => true | _ => false end.

(** ** The world *)

Inductive level : Type := LOW | HIGH.

Record response : Type := {
  status_code : Z;
  (** [response.json()]: [None] when the body does not parse. *)
  json_body : option pyval
}.

Inductive http_result : Type :=
| Responded (r : response)
| Failed (e : exc).

Record backend : Type := {
  (** outcome of the n-th [session.post] of the main thread *)
  session_post : nat -> string -> pyval -> http_result;
  (** whether the decoding error of [response.json()] derives from
      [requests.exceptions.RequestException] (it does since requests 2.27) *)
  json_error_is_request_exception : bool
}.

Inductive piece : Type :=
| Txt (s : string)
| Val (v : pyval)
| Num (n : Z)
| Exn (e : exc)
| ExnType (e : exc).

Inductive event : Type :=
| EvPrint (line : list piece)
| EvGpioSetwarnings (flag : bool)
| EvGpioSetmodeBCM
| EvGpioSetup (pin : Z) (initial : level)
| EvGpioOutput (pin : Z) (v : level)
| EvGpioCleanup
| EvSleep (ms : Z)
| EvSleepInterrupted (ms : Z)   (** a sleep of [ms] that a signal cut short *)
| EvPost (url : string) (payload : pyval) (timeout : Z)
| EvThreadStart (daemon : bool) (endpoint : string) (payload : pyval)
                (success_message : string).

Record state : Type := {
  relay : level;      (** level of the relay output *)
  requests : nat      (** requests made so far by the main thread *)
}.

(** ** Computations: state, exceptions and an event log *)

Inductive outcome (A : Type) : Type :=
| Returned (a : A)
| Raised (e : exc).
Arguments Returned {A} a.
Arguments Raised {A} e.

Definition M (A : Type) : Type := state -> outcome A * state * list event.

Definition ret {A} (a : A) : M A := fun st => (Returned a, st, []).

Definition raise {A} (e : exc) : M A := fun st => (Raised e, st, []).

Definition bind {A B} (m : M A) (f : A -> M B) : M B :=
  fun st =>
    match m st with
    | (Returned a, st1, t1) =>
        match f a st1 with
        | (r, st2, t2) => (r, st2, t1 ++ t2)
        end
    | (Raised e, st1, t1) => (Raised e, st1, t1)
    end.

Notation "x <- m ;; k" := (bind m (fun x => k))
  (at level 61, m at next level, right associativity).
Notation "m ;; k" := (bind m (fun _ => k))
  (at level 61, right associativity).

Definition emit (e : event) : M unit := fun st => (Returned tt, st, [e]).

(** [try: m  except <handles> as e: h e] *)
Definition try_except {A} (m : M A) (handles : exc -> bool) (h : exc -> M A) : M A :=
  fun st =>
    match m st with
    | (Raised e, st1, t1) =>
        if handles e then
          match h e st1 with
          | (r, st2, t2) => (r, st2, t1 ++ t2)
          end
        else (Raised e, st1, t1)
    | done => done
    end.

(** [try: m  finally: f]: an exception leaving [f] replaces whatever [m]
    was doing. *)
Definition try_finally {A} (m : M A) (f : M unit) : M A :=
  fun st =>
    match m st with
    | (r, st1, t1) =>
        match f st1 with
        | (Returned _, st2, t2) => (r, st2, t1 ++ t2)
        | (Raised e, st2, t2) => (Raised e, st2, t1 ++ t2)
        end
    end.

Definition print (line : list piece) : M unit := emit (EvPrint line).

(** *** Signals

    [sig k] tells whether a signal arrives during the [k]-th sleep, counted
    from 0, of the computation at hand. *)
Class signals : Type := signal_during : nat -> bool.

(** No signal arrives. *)
#[export] Instance no_signal : signals := fun _ => false.

(** The schedule left once [n] sleeps are over. *)
Definition later (n : nat) (sig : signals) : signals := fun k => sig (n + k)%nat.

(** The signals of a whole run: those of its first validation, of its second,
    and so on. *)
Class schedule : Type := signals_of : nat -> signals.

(** A run during which no signal arrives in a sleep. *)
#[export] Instance calm : schedule := fun _ => no_signal.

(** [time.sleep(secs)], for a duration of [ms] milliseconds: a negative
    duration is refused with [ValueError] before any time passes, and a
    signal arriving during the sleep ends it with [KeyboardInterrupt]. *)
Definition time_sleep (interrupted : bool) (ms : Z) : M unit :=
  if ms <? 0 then raise ValueError
  else if interrupted then emit (EvSleepInterrupted ms) ;; raise KeyboardInterrupt
  else emit (EvSleep ms).

(** [v.get(key, default)]; only dicts have [get]. *)
Definition py_get (v : pyval) (key : string) (default : pyval) : M pyval :=
  match v with
  | PyDict fields => ret (dict_get_default fields key default)
  | _ => raise AttributeError
  end.

Definition response_json (r : response) : M pyval :=
  match json_body r with
  | Some v => ret v
  | None => raise JSONDecodeError
  end.

(** ** Configuration *)

Definition BACKEND_BASE_URL : string :=
  "https://smartaccesscontrol-backend-production.up.railway.app/api".
Definition VERIFY_RFID_URL : string := (BACKEND_BASE_URL ++ "/rfid/verify")%string.
Definition ACTIVATE_RFID_URL : string := (BACKEND_BASE_URL ++ "/rfid/activate")%string.
Definition LOG_GRANTED_URL : string := (BACKEND_BASE_URL ++ "/access-logs/granted")%string.
Definition LOG_DENIED_URL : string := (BACKEND_BASE_URL ++ "/access-logs/denied")%string.

Definition RELAY_PIN : Z := 17.
Definition UNLOCK_DURATION_SECONDS : Z := 5.
Definition REQUEST_TIMEOUT : Z := 5.
Definition LOG_THREAD_DAEMON : bool := true.

(** [str(n)] for an [int] *)
Definition str_of_int (n : Z) : string := NilZero.string_of_int (Z.to_int n).
Arguments str_of_int : simpl never.

(** ** GPIO *)

Definition GPIO_output (pin : Z) (v : level) : M unit :=
  fun st =>
    (Returned tt,
     {| relay := if pin =? RELAY_PIN then v else relay st; requests := requests st |},
     [EvGpioOutput pin v]).

Definition GPIOHandler_enter : M unit :=
  emit (EvGpioSetwarnings false) ;;
  emit EvGpioSetmodeBCM ;;
  fun st =>
    (Returned tt, {| relay := LOW; requests := requests st |},
     [EvGpioSetup RELAY_PIN LOW]).

(** [__exit__] returns [None]: the exception in flight, if any, goes on. *)
Definition GPIOHandler_exit (exc_info : option exc) : M unit :=
  emit EvGpioCleanup ;;
  match exc_info with
  | Some e => print [Txt "[ERROR] Exiting due to exception: "; ExnType e; Txt " - "; Exn e]
  | None => print [Txt "[INFO] GPIO cleanup complete."]
  end.

(** ** Helper functions *)

(** [unlock_door()]; its sleep is the first of the schedule. *)
Definition unlock_door {sig : signals} : M unit :=
  print [Txt "[INFO] Unlocking door..."] ;;
  GPIO_output RELAY_PIN HIGH ;;
  time_sleep (sig 0%nat) (1000 * UNLOCK_DURATION_SECONDS) ;;
  GPIO_output RELAY_PIN LOW ;;
  print [Txt "[INFO] Door locked."].

(** The [for] loop of [flash_relay]: two sleeps a round. *)
Fixpoint flash_loop {sig : signals} (count : nat) (interval : Z) : M unit :=
  match count with
  | O => ret tt
  | S k =>
      GPIO_output RELAY_PIN HIGH ;;
      time_sleep (sig 0%nat) interval ;;
      GPIO_output RELAY_PIN LOW ;;
      time_sleep (sig 1%nat) interval ;;
      flash_loop (sig := later 2 sig) k interval
  end.

Definition flash_relay {sig : signals} (flash_count : nat) (interval : Z) : M unit :=
  print [Txt "[WARN] Flashing relay for access denial."] ;;
  flash_loop (sig := sig) flash_count interval ;;
  print [Txt "[WARN] Access denial flash complete."].

(** defaults of [flash_relay]: six flashes, 0.15 s apart *)
Definition FLASH_COUNT : nat := 6.
Definition FLASH_INTERVAL : Z := 150.

(** The body of the logging thread, given what its request comes to.  It runs
    beside the main thread and is not part of the main thread's events. *)
Definition log_worker (success_message : string) (result : http_result)
    : outcome unit * list event :=
  match result with
  | Responded r =>
      if status_code r =? 201
      then (Returned tt, [EvPrint [Txt "[INFO] "; Txt success_message]])
      else (Returned tt, [EvPrint [Txt "[ERROR] Logging failed: HTTP "; Num (status_code r)]])
  | Failed e =>
      match e with
      | RequestException _ =>
          (Returned tt, [EvPrint [Txt "[ERROR] Logging request exception: "; Exn e]])
      | _ => (Raised e, [])
      end
  end.

Definition log_access_attempt (endpoint : string) (payload : pyval)
    (success_message : string) : M unit :=
  emit (EvThreadStart LOG_THREAD_DAEMON endpoint payload success_message).

Definition uid_payload (rfid_uid : string) : pyval :=
  PyDict [("rfid_uid", PyStr rfid_uid)].

Definition deny_access {sig : signals} (rfid_uid : string) (reason : pyval) : M unit :=
  print [Txt "[DENIED] ACCESS DENIED: "; Val reason] ;;
  flash_relay (sig := sig) FLASH_COUNT FLASH_INTERVAL ;;
  log_access_attempt LOG_DENIED_URL (uid_payload rfid_uid)
    "Access denied logged successfully.".

(** ** Talking to the backend *)

(** [except requests.exceptions.RequestException] *)
Definition is_RequestException (net : backend) (e : exc) : bool :=
  match e with
  | RequestException _ => true
  | JSONDecodeError => json_error_is_request_exception net
  | _ => false
  end.

(** [session.post(url, json=payload, timeout=REQUEST_TIMEOUT)] *)
Definition post (net : backend) (url : string) (payload : pyval) : M response :=
  fun st =>
    let st' := {| relay := relay st; requests := S (requests st) |} in
    match session_post net (requests st) url payload with
    | Responded r => (Returned r, st', [EvPost url payload REQUEST_TIMEOUT])
    | Failed e => (Raised e, st', [EvPost url payload REQUEST_TIMEOUT])
    end.

Definition activate_rfid_if_assigned (net : backend) (rfid_uid : string)
    (rfid_status : pyval) : M pyval :=
  if py_ne_str rfid_status "assigned" then ret rfid_status
  else
    print [Txt "[INFO] RFID status is 'assigned'. Attempting to activate..."] ;;
    try_except
      (response <- post net ACTIVATE_RFID_URL (uid_payload rfid_uid) ;;
       if status_code response =? 200 then
         data <- response_json response ;;
         success <- py_get data "success" PyNone ;;
         if truthy success then
           updatedRFID <- py_get data "data" (PyDict []) ;;
           newStatus <- py_get updatedRFID "status" (PyStr "unknown") ;;
           print [Txt "[INFO] RFID "; Txt rfid_uid;
                  Txt " successfully activated (status="; Val newStatus; Txt ")."] ;;
           ret newStatus
         else
           message <- py_get data "message" PyNone ;;
           print [Txt "[ERROR] Could not activate RFID "; Txt rfid_uid; Txt ": ";
                  Val message] ;;
           ret PyNone
       else
         print [Txt "[ERROR] Unexpected HTTP "; Num (status_code response);
                Txt " activating RFID."] ;;
         ret PyNone)
      (is_RequestException net)
      (fun e =>
         print [Txt "[ERROR] Cannot connect to backend to activate RFID: "; Exn e] ;;
         ret PyNone).

(** The [if guest_info: ... else: ...] statement of [validate_rfid]. *)
Definition print_guest_info (guest_info : pyval) : M unit :=
  if truthy guest_info then
    id <- py_get guest_info "id" PyNone ;;
    name <- py_get guest_info "name" PyNone ;;
    print [Txt "[INFO] Guest Info => ID="; Val id; Txt ", Name="; Val name]
  else print [Txt "[WARN] No guest info provided by backend."].

(** The [if room_info: ... else: ...] statement of [validate_rfid]. *)
Definition print_room_info (room_info : pyval) : M unit :=
  if truthy room_info then
    id <- py_get room_info "id" PyNone ;;
    number <- py_get room_info "room_number" PyNone ;;
    status <- py_get room_info "status" PyNone ;;
    check_in <- py_get room_info "check_in" PyNone ;;
    check_out <- py_get room_info "check_out" PyNone ;;
    print [Txt "[INFO] Room Info => "; Txt "ID="; Val id; Txt ", ";
           Txt "Number="; Val number; Txt ", "; Txt "Status="; Val status; Txt ", ";
           Txt "check_in="; Val check_in; Txt ", "; Txt "check_out="; Val check_out]
  else print [Txt "[WARN] No room info provided by backend."].

(** The [payload] dict of a granted attempt. *)
Definition granted_payload (rfid_uid : string) (guest_id : pyval) : pyval :=
  PyDict [("rfid_uid", PyStr rfid_uid); ("guest_id", guest_id)].

(** The rest of the status-200 branch of [validate_rfid], from
    [var_data = data.get("data", {})] on: what it does once the verify
    response parsed and its [success] flag is set. *)
Definition grant_or_activate {sig : signals} (net : backend) (rfid_uid : string)
    (data : pyval) : M unit :=
  var_data <- py_get data "data" (PyDict []) ;;
  rfid_data <- py_get var_data "rfid" (PyDict []) ;;
  guest_info <- py_get var_data "guest" (PyDict []) ;;
  var_room <- py_get var_data "room" PyNone ;;
  let room_info := if is_None var_room then PyDict [] else var_room in
  print [Txt "[INFO] RFID Verified: "; Txt rfid_uid] ;;
  print_guest_info guest_info ;;
  print_room_info room_info ;;
  current_status <- py_get rfid_data "status" PyNone ;;
  updated_status <- activate_rfid_if_assigned net rfid_uid current_status ;;
  if is_None updated_status then
    deny_access (sig := sig) rfid_uid
      (PyStr ("RFID " ++ rfid_uid ++ " could not be activated.")%string)
  else
    unlock_door (sig := sig) ;;
    guest_id <- (if truthy guest_info then py_get guest_info "id" PyNone
                 else ret PyNone) ;;
    log_access_attempt LOG_GRANTED_URL (granted_payload rfid_uid guest_id)
      "Access granted logged successfully.".

Definition validate_rfid {sig : signals} (net : backend) (rfid_uid : string) : M unit :=
  print [Txt "[INFO] Sending verification request for RFID="; Txt rfid_uid; Txt "..."] ;;
  attempt <- try_except
               (response <- post net VERIFY_RFID_URL (uid_payload rfid_uid) ;;
                ret (Some response))
               (is_RequestException net)
               (fun e =>
                  print [Txt "[ERROR] Cannot connect to backend: "; Exn e] ;;
                  ret None) ;;
  match attempt with
  | None => ret tt
  | Some response =>
      if status_code response =? 200 then
        parsed <- try_except
                    (data <- response_json response ;; ret (Some data))
                    is_ValueError
                    (fun e =>
                       print [Txt "[ERROR] JSON parse error: "; Exn e] ;;
                       deny_access (sig := sig) rfid_uid
                         (PyStr "Backend JSON parse error.") ;;
                       ret None) ;;
        match parsed with
        | None => ret tt
        | Some data =>
            print [Txt "[DEBUG] Full backend response: "; Val data] ;;
            success <- py_get data "success" PyNone ;;
            if negb (truthy success) then
              message <- py_get data "message" (PyStr "Unknown backend error.") ;;
              deny_access (sig := sig) rfid_uid message
            else grant_or_activate (sig := sig) net rfid_uid data
        end
      else if (status_code response =? 403) || (status_code response =? 404) then
        reason <- try_except
                    (body <- response_json response ;;
                     py_get body "message" (PyStr "No detail provided"))
                    is_ValueError
                    (fun _ => ret (PyStr "No detail provided")) ;;
        deny_access (sig := sig) rfid_uid reason
      else
        print [Txt "[ERROR] Unexpected backend response: HTTP ";
               Num (status_code response)] ;;
        deny_access (sig := sig) rfid_uid
          (PyStr ("Unexpected status " ++ str_of_int (status_code response))%string)
  end.

(** ** The entry loop *)

(** [c.isspace()], for the code points below 256 *)
Definition isspace (c : ascii) : bool :=
  let n := nat_of_ascii c in
  ((9 <=? n) && (n <=? 13) || (28 <=? n) && (n <=? 32)
   || (n =? 133) || (n =? 160))%nat.

Fixpoint lstrip (s : string) : string :=
  match s with
  | EmptyString => EmptyString
  | String c rest => if isspace c then lstrip rest else s
  end.

Fixpoint rstrip (s : string) : string :=
  match s with
  | EmptyString => EmptyString
  | String c rest =>
      match rstrip rest with
      | EmptyString => if isspace c then EmptyString else String c EmptyString
      | kept => String c kept
      end
  end.

(** [s.strip()] *)
Definition strip (s : string) : string := rstrip (lstrip s).

(** One call of [input()]: a line, or an exception (Ctrl+C while waiting). *)
Inductive stdin_read : Type :=
| Line (text : string)
| ReadRaises (e : exc).

Definition newline : string := String (ascii_of_nat 10) EmptyString.

(** The [while True] loop of [main]; it is left only by an exception.  Each
    validation has its own signals, the first of the schedule. *)
Fixpoint scan_loop {sched : schedule} (net : backend) (stdin : list stdin_read)
    : M unit :=
  match stdin with
  | [] => raise EOFError
  | ReadRaises e :: _ => raise e
  | Line text :: rest =>
      let rfid_uid := strip text in
      if (rfid_uid =? "")%string then scan_loop (sched := sched) net rest
      else
        print [Txt "[SCAN] RFID Scanned: "; Txt rfid_uid] ;;
        validate_rfid (sig := sched 0%nat) net rfid_uid ;;
        scan_loop (sched := fun i => sched (S i)) net rest
  end.

Definition sys_exit (code : Z) : M unit := raise (SystemExit code).

Definition main {sched : schedule} (net : backend) (stdin : list stdin_read)
    : M unit :=
  print [Txt "[INFO] RFID Reader is active. Waiting for scans (Ctrl+C to exit)."] ;;
  try_finally
    (try_except (scan_loop (sched := sched) net stdin)
       (fun e => is_KeyboardInterrupt e || is_Exception e)
       (fun e =>
          if is_KeyboardInterrupt e
          then print [Txt (newline ++ "[INFO] Exiting RFID reader gracefully...")%string]
          else print [Txt "[ERROR] Unexpected error: "; Exn e]))
    (sys_exit 0).

(** [with GPIOHandler(): body] *)
Definition with_GPIOHandler {A} (body : M A) : M A :=
  GPIOHandler_enter ;;
  fun st =>
    match body st with
    | (r, st1, t1) =>
        let exc_info := match r with Raised e => Some e | Returned _ => None end in
        match GPIOHandler_exit exc_info st1 with
        | (Returned _, st2, t2) => (r, st2, t1 ++ t2)
        | (Raised e, st2, t2) => (Raised e, st2, t1 ++ t2)
        end
    end.

(** The script, run as a program. *)
Definition script {sched : schedule} (net : backend) (stdin : list stdin_read)
    : M unit :=
  with_GPIOHandler (main (sched := sched) net stdin).

(** Exit status of the interpreter for the way the script ended. *)
Definition exit_status {A} (r : outcome A) : Z :=
  match r with
  | Returned _ => 0
  | Raised (SystemExit code) => code
  | Raised KeyboardInterrupt => 130
  | Raised _ => 1
  end.

(** ** What an event log shows *)

(** Lengths of the successive spans during which the relay is HIGH: the time
    slept between a write of HIGH and the next write of LOW.  Only sleeps that
    ran to their end are counted; a span still open at the end of the log is
    given with the time slept so far. *)
Fixpoint high_spans (lvl : level) (acc : Z) (t : list event) : list Z :=
  match t with
  | [] => match lvl with HIGH => [acc] | LOW => [] end
  | EvGpioOutput pin v :: rest =>
      if pin =? RELAY_PIN then
        match lvl, v with
        | LOW, HIGH => high_spans HIGH 0 rest
        | HIGH, LOW => acc :: high_spans LOW 0 rest
        | _, _ => high_spans lvl acc rest
        end
      else high_spans lvl acc rest
  | EvSleep ms :: rest => high_spans lvl (acc + ms) rest
  | _ :: rest => high_spans lvl acc rest
  end.

Definition relay_pulses (t : list event) : list Z := high_spans LOW 0 t.

(** The requests of the main thread, in order. *)
Fixpoint requests_sent (t : list event) : list (string * pyval) :=
  match t with
  | [] => []
  | EvPost url payload _ :: rest => (url, payload) :: requests_sent rest
  | _ :: rest => requests_sent rest
  end.

(** The access records handed to the logging threads, in order. *)
Fixpoint log_records (t : list event) : list (string * pyval) :=
  match t with
  | [] => []
  | EvThreadStart _ endpoint payload _ :: rest => (endpoint, payload) :: log_records rest
  | _ :: rest => log_records rest
  end.

(** The reasons printed by [deny_access], in order. *)
Fixpoint denial_reasons (t : list event) : list pyval :=
  match t with
  | [] => []
  | EvPrint [Txt "[DENIED] ACCESS DENIED: "; Val reason] :: rest =>
      reason :: denial_reasons rest
  | _ :: rest => denial_reasons rest
  end.

(** The door counts as engaged when the relay is held HIGH for the unlock
    duration. *)
Definition door_engaged (t : list event) : bool :=
  existsb (fun d => 1000 * UNLOCK_DURATION_SECONDS <=? d) (relay_pulses t).

(** A denied attempt: the six-pulse flash, a record sent to the denied-log
    endpoint, and the reason printed. *)
Definition Denied (rfid_uid : string) (reason : pyval) (t : list event) : Prop :=
  relay_pulses t = repeat FLASH_INTERVAL FLASH_COUNT
  /\ log_records t = [(LOG_DENIED_URL, uid_payload rfid_uid)]
  /\ denial_reasons t = [reason].

(** A granted attempt: one pulse of the unlock duration and a record sent to
    the granted-log endpoint. *)
Definition Granted (rfid_uid : string) (guest_id : pyval) (t : list event) : Prop :=
  relay_pulses t = [1000 * UNLOCK_DURATION_SECONDS]
  /\ log_records t = [(LOG_GRANTED_URL, granted_payload rfid_uid guest_id)]
  /\ denial_reasons t = [].

(** Shape of the optional [guest] and [room] members of a verify response:
    absent, empty or null, or an object. *)
Definition optional_record (member : option pyval) : bool :=
  match member with
  | None => true
  | Some (PyDict _) => true
  | Some v => negb (truthy v)
  end.

(** The guest id a grant is logged with. *)
Definition guest_id_of (guest : option pyval) : pyval :=
  match guest with
  | Some (PyDict (f :: fs)) => dict_get_default (f :: fs) "id" PyNone
  | _ => PyNone
  end.

(** A response with the given status and parsed body. *)
Definition replied (c : Z) (body : option pyval) : http_result :=
  Responded {| status_code := c; json_body := body |}.

(** The state a validation that made one request and left the relay at [lvl]
    ends in. *)
Definition after_request (lvl : level) (st : state) : state :=
  {| relay := lvl; requests := S (requests st) |}.

(** Level of the relay after the events of [t], starting from [lvl]. *)
Fixpoint level_after (lvl : level) (t : list event) : level :=
  match t with
  | [] => lvl
  | EvGpioOutput pin v :: rest =>
      level_after (if pin =? RELAY_PIN then v else lvl) rest
  | _ :: rest => level_after lvl rest
  end.

(** A computation that, entered with the relay LOW, holds it HIGH for at most
    the unlock duration at a time and leaves it LOW however it ends, unless a
    signal cut one of its sleeps short: then [KeyboardInterrupt] leaves it,
    the interrupted sleep being the last thing it did.  [signalled] says that
    the schedule at hand holds a signal. *)
Definition rests_low_unless (signalled : Prop) {A} (m : M A) : Prop :=
  forall st, relay st = LOW ->
    match m st with
    | (r, st', t) =>
        relay st' = level_after LOW t
        /\ Forall (fun d => d <= 1000 * UNLOCK_DURATION_SECONDS) (relay_pulses t)
        /\ (relay st' = LOW
            \/ (signalled
                /\ r = Raised KeyboardInterrupt
                /\ exists t0 ms, t = t0 ++ [EvSleepInterrupted ms]))
    end.

(** What [main] prints for the exception that ended its loop. *)
Definition farewell (e : exc) : list event :=
  if is_KeyboardInterrupt e then
    [EvPrint [Txt (newline ++ "[INFO] Exiting RFID reader gracefully...")%string]]
  else if is_Exception e then
    [EvPrint [Txt "[ERROR] Unexpected error: "; Exn e]]
  else [].

(** Whether every character of [s] is whitespace. *)
Fixpoint blank (s : string) : bool :=
  match s with
  | EmptyString => true
  | String c rest => isspace c && blank rest
  end.

(** ** More that an event log shows *)

(** Time slept, in milliseconds. *)
Fixpoint sleep_total (t : list event) : Z :=
  match t with
  | [] => 0
  | EvSleep ms :: rest => ms + sleep_total rest
  | _ :: rest => sleep_total rest
  end.

(** The timeouts of the requests, in order. *)
Fixpoint request_timeouts (t : list event) : list Z :=
  match t with
  | [] => []
  | EvPost _ _ timeout :: rest => timeout :: request_timeouts rest
  | _ :: rest => request_timeouts rest
  end.

(** The levels written to the relay pin, in order. *)
Fixpoint relay_writes (t : list event) : list level :=
  match t with
  | [] => []
  | EvGpioOutput pin v :: rest =>
      if pin =? RELAY_PIN then v :: relay_writes rest else relay_writes rest
  | _ :: rest => relay_writes rest
  end.

(** Nothing done to the door and nothing recorded: no pulse, no access
    record, no denial announced, no sleep. *)
Definition silent (t : list event) : Prop :=
  relay_pulses t = [] /\ log_records t = [] /\ denial_reasons t = []
  /\ sleep_total t = 0.

(** The status [validate_rfid] reads from a verify response:
    [data.get("data", {}).get("rfid", {}).get("status")], where the objects
    on the way are objects. *)
Definition reported_status (fields : list (string * pyval)) : option pyval :=
  match dict_get_default fields "data" (PyDict []) with
  | PyDict d =>
      match dict_get_default d "rfid" (PyDict []) with
      | PyDict r => Some (dict_get_default r "status" PyNone)
      | _ => None
      end
  | _ => None
  end.

(** The verify requests among the requests of a log. *)
Definition verify_requests (t : list event) : list (string * pyval) :=
  filter (fun rq => (fst rq =? VERIFY_RFID_URL)%string) (requests_sent t).

(** The identifiers the loop reads: the stripped non-empty lines, up to the
    first read that raises. *)
Fixpoint scanned (stdin : list stdin_read) : list string :=
  match stdin with
  | [] => []
  | ReadRaises _ :: _ => []
  | Line text :: rest =>
      if (strip text =? "")%string then scanned rest
      else strip text :: scanned rest
  end.

(** An identifier as the loop passes it on: not empty, and unchanged by
    [strip]. *)
Definition stripped_uid (uid : string) : Prop :=
  uid <> EmptyString /\ strip uid = uid.

(** The events the reader produces between GPIO setup and cleanup, for
    identifiers satisfying [known]: prints and sleeps, writes to the relay
    pin, requests to the verify and activate endpoints with the fixed timeout
    and the identifier as payload, and daemon logging threads for the two
    access-log endpoints. *)
Definition reader_event (known : string -> Prop) (ev : event) : Prop :=
  match ev with
  | EvPrint _ | EvSleep _ => True
  | EvGpioOutput pin _ => pin = RELAY_PIN
  | EvPost url payload timeout =>
      (url = VERIFY_RFID_URL \/ url = ACTIVATE_RFID_URL)
      /\ timeout = REQUEST_TIMEOUT
      /\ exists uid, known uid /\ payload = uid_payload uid
  | EvThreadStart daemon endpoint payload _ =>
      daemon = LOG_THREAD_DAEMON
      /\ exists uid,
           known uid
           /\ ((endpoint = LOG_DENIED_URL /\ payload = uid_payload uid)
               \/ (endpoint = LOG_GRANTED_URL
                   /\ exists guest_id, payload = granted_payload uid guest_id))
  | _ => False
  end.

(** Every event of [m], from any state, satisfies [ok]. *)
Definition emits (ok : event -> Prop) {A} (m : M A) : Prop :=
  forall st, Forall ok (snd (m st)).

(** [m], run from [st], ends in an outcome, state and log satisfying [Q]. *)
Definition runs {A} (m : M A) (st : state)
    (Q : outcome A -> state -> list event -> Prop) : Prop :=
  match m st with
  | (r, st', t) => Q r st' t
  end.

(** What [GPIOHandler.__enter__] does. *)
Definition GPIOHandler_enter_log : list event :=
  [EvGpioSetwarnings false; EvGpioSetmodeBCM; EvGpioSetup RELAY_PIN LOW].

(** What [GPIOHandler.__exit__] does when [e] is in flight. *)
Definition GPIOHandler_exit_log (e : exc) : list event :=
  [EvGpioCleanup;
   EvPrint [Txt "[ERROR] Exiting due to exception: "; ExnType e; Txt " - "; Exn e]].

(** The ways an activation request can fail: a transport error, a status
    other than 200, a body that does not parse, or a parsed object whose
    [success] flag is not set. *)
Definition activation_failed (result : http_result) : bool :=
  match result with
  | Failed e => match e with RequestException _ => true | _ => false end
  | Responded r =>
      if status_code r =? 200 then
        match json_body r with
        | None => true
        | Some (PyDict fields) => negb (truthy (dict_get_default fields "success" PyNone))
        | Some _ => false
        end
      else true
  end.

(** The response came, and its body does not parse. *)
Definition unparseable (result : http_result) : bool :=
  match result with
  | Responded r => match json_body r with None => true | Some _ => false end
  | Failed _ => false
  end.

Arguments dict_get_default : simpl never.
Arguments VERIFY_RFID_URL : simpl never.
Arguments ACTIVATE_RFID_URL : simpl never.
Arguments LOG_GRANTED_URL : simpl never.
Arguments LOG_DENIED_URL : simpl never.
Arguments uid_payload : simpl never.

(** * Properties *)

Lemma dict_get_default_some fields key default v :
  dict_get fields key = Some v -> dict_get_default fields key default = v.
Proof. unfold dict_get_default. intros ->. reflexivity. Qed.

Lemma dict_get_default_none fields key default :
  dict_get fields key = None -> dict_get_default fields key default = default.
Proof. unfold dict_get_default. intros ->. reflexivity. Qed.

(** The two ways an optional member is read by the engine: as a non-empty
    object, or as something falsy that is then not looked into. *)
Lemma optional_record_cases d key :
  optional_record (dict_get d key) = true ->
  (exists f fs, dict_get_default d key (PyDict []) = PyDict (f :: fs)
                /\ dict_get_default d key PyNone = PyDict (f :: fs)
                /\ guest_id_of (dict_get d key) = dict_get_default (f :: fs) "id" PyNone)
  \/ (truthy (dict_get_default d key (PyDict [])) = false
      /\ truthy (if is_None (dict_get_default d key PyNone) then PyDict []
                 else dict_get_default d key PyNone) = false
      /\ guest_id_of (dict_get d key) = PyNone).
Proof.
  unfold dict_get_default.
  destruct (dict_get d key) as [v|]; [|right; repeat split; reflexivity].
  destruct v as [ | b | n | f | s | items | fields]; intros H.
  7: destruct fields as [|f fs]; [right; repeat split; reflexivity | left; eauto].
  all: right; assert (Hf := proj1 (negb_true_iff _) H); cbn in Hf; cbn;
       repeat split; try reflexivity; exact Hf.
Qed.

(** Unfolds the engine down to the primitive steps. *)
Ltac open_engine :=
  unfold validate_rfid, grant_or_activate, activate_rfid_if_assigned,
    print_guest_info, print_room_info, deny_access, flash_relay, unlock_door,
    log_access_attempt, response_json, py_get, time_sleep, print, emit,
    post, try_except, bind, ret, raise.

(** The observations of a fully evaluated log. *)
Ltac read_log :=
  unfold Denied, Granted, door_engaged, relay_pulses, after_request;
  cbn; repeat split; try reflexivity.

(** Splits on the next test the evaluation is stuck at. *)
Ltac branch :=
  match goal with
  | |- context [if ?b then _ else _] =>
      lazymatch b with
      | true => fail
      | false => fail
      | _ => destruct b eqn:?
      end
  | |- context [match json_body ?r with _ => _ end] => destruct (json_body r) eqn:?
  | |- context [match ?v with PyNone => _ | _ => _ end] => destruct v eqn:?
  end; cbn.

(** Cuts a log after its first [n] events, dropping the next one. *)
Ltac split_log n :=
  match goal with
  | |- exists pre rest, ?t = _ /\ _ =>
      exists (firstn n t), (skipn (S n) t); cbn; repeat split
  end.

(** ** Verification that never reached the backend *)

(** C2: when the verify request fails at the transport level, [validate_rfid]
    returns after printing a diagnostic: no record is logged, no denial is
    announced, and the relay is not touched. *)
Theorem C2_verify_transport_failure_is_silent :
  forall net rfid_uid st e,
    session_post net (requests st) VERIFY_RFID_URL (uid_payload rfid_uid) = Failed e ->
    is_RequestException net e = true ->
    exists t,
      validate_rfid net rfid_uid st = (Returned tt, after_request (relay st) st, t)
      /\ t = [EvPrint [Txt "[INFO] Sending verification request for RFID=";
                       Txt rfid_uid; Txt "..."];
              EvPost VERIFY_RFID_URL (uid_payload rfid_uid) REQUEST_TIMEOUT;
              EvPrint [Txt "[ERROR] Cannot connect to backend: "; Exn e]]
      /\ log_records t = []
      /\ relay_pulses t = []
      /\ denial_reasons t = []
      /\ door_engaged t = false.
Proof.
  intros net rfid_uid st e Hpost He.
  eexists. split.
  - open_engine. rewrite Hpost, He. reflexivity.
  - read_log.
Qed.

Lemma C2_verify_transport_failure_is_silent_witness :
  let net := {| session_post := fun _ _ _ => Failed (RequestException "Timeout");
                json_error_is_request_exception := true |} in
  let st := {| relay := LOW; requests := 0 |} in
  exists t,
    validate_rfid net "D4" st = (Returned tt, after_request LOW st, t)
    /\ log_records t = [] /\ relay_pulses t = [].
Proof.
  intros net st.
  destruct (C2_verify_transport_failure_is_silent net "D4" st
              (RequestException "Timeout") eq_refl eq_refl)
    as (t & Hrun & _ & Hlog & Hpulses & _).
  exists t. repeat split; assumption.
Defined.

(** ** Denials decided by the verify response *)

(** C3: a verify response with status 200 whose parsed body has a false
    [success] flag is denied: six flashes, a record to the denied-log
    endpoint, no engagement; the reason is the body's [message] when it has
    one, else "Unknown backend error.". *)
Theorem C3_verify_refusal_is_denied :
  forall net rfid_uid st fields,
    session_post net (requests st) VERIFY_RFID_URL (uid_payload rfid_uid)
      = replied 200 (Some (PyDict fields)) ->
    truthy (dict_get_default fields "success" PyNone) = false ->
    exists t,
      validate_rfid net rfid_uid st = (Returned tt, after_request LOW st, t)
      /\ Denied rfid_uid
           (dict_get_default fields "message" (PyStr "Unknown backend error.")) t
      /\ door_engaged t = false
      /\ requests_sent t = [(VERIFY_RFID_URL, uid_payload rfid_uid)].
Proof.
  intros net rfid_uid st fields Hpost Hflag.
  eexists. split.
  - open_engine. rewrite Hpost. cbn. rewrite Hflag. cbn. reflexivity.
  - read_log.
Qed.

Lemma C3_verify_refusal_is_denied_witness :
  let body := [("success", PyBool false); ("message", PyStr "Card revoked")] in
  let net := {| session_post := fun _ _ _ => replied 200 (Some (PyDict body));
                json_error_is_request_exception := true |} in
  let st := {| relay := LOW; requests := 0 |} in
  exists t,
    validate_rfid net "E5" st = (Returned tt, after_request LOW st, t)
    /\ Denied "E5" (PyStr "Card revoked") t
    /\ door_engaged t = false.
Proof.
  intros body net st.
  destruct (C3_verify_refusal_is_denied net "E5" st body eq_refl eq_refl)
    as (t & Hrun & Hdenied & Hdoor & _).
  exists t. repeat split; try assumption; apply Hdenied.
Defined.

(** C7: a verify response with status 200 whose body does not parse is
    denied, with the reason "Backend JSON parse error.": six flashes, a
    record to the denied-log endpoint, no engagement. *)
Theorem C7_unparseable_verify_body_is_denied :
  forall net rfid_uid st,
    session_post net (requests st) VERIFY_RFID_URL (uid_payload rfid_uid)
      = replied 200 None ->
    exists t,
      validate_rfid net rfid_uid st = (Returned tt, after_request LOW st, t)
      /\ Denied rfid_uid (PyStr "Backend JSON parse error.") t
      /\ door_engaged t = false
      /\ requests_sent t = [(VERIFY_RFID_URL, uid_payload rfid_uid)].
Proof.
  intros net rfid_uid st Hpost.
  eexists. split.
  - open_engine. rewrite Hpost. cbn. reflexivity.
  - read_log.
Qed.

Lemma C7_unparseable_verify_body_is_denied_witness :
  let net := {| session_post := fun _ _ _ => replied 200 None;
                json_error_is_request_exception := false |} in
  let st := {| relay := LOW; requests := 3 |} in
  exists t,
    validate_rfid net "F6" st = (Returned tt, after_request LOW st, t)
    /\ Denied "F6" (PyStr "Backend JSON parse error.") t.
Proof.
  intros net st.
  destruct (C7_unparseable_verify_body_is_denied net "F6" st eq_refl)
    as (t & Hrun & Hdenied & _).
  exists t. split; assumption.
Defined.

(** A verify response with status 403 or 404 is denied, the reason being
    the body's [message] when the body parses to an object that has one and
    "No detail provided" when it has none or does not parse; a verify
    response with any other status than 200, 403 and 404 is denied with the
    reason "Unexpected status " followed by the status in decimal. *)
Lemma verify_error_status_is_denied :
  forall net rfid_uid st r,
    session_post net (requests st) VERIFY_RFID_URL (uid_payload rfid_uid)
      = Responded r ->
    (status_code r = 403 \/ status_code r = 404 ->
     forall reason,
       (json_body r = None /\ reason = PyStr "No detail provided")
       \/ (exists fields,
             json_body r = Some (PyDict fields)
             /\ reason = dict_get_default fields "message" (PyStr "No detail provided")) ->
       exists t,
         validate_rfid net rfid_uid st = (Returned tt, after_request LOW st, t)
         /\ Denied rfid_uid reason t
         /\ door_engaged t = false)
    /\ (status_code r <> 200 -> status_code r <> 403 -> status_code r <> 404 ->
        exists t,
          validate_rfid net rfid_uid st = (Returned tt, after_request LOW st, t)
          /\ Denied rfid_uid
               (PyStr ("Unexpected status "
                       ++ NilZero.string_of_int (Z.to_int (status_code r)))%string) t
          /\ door_engaged t = false).
Proof.
  intros net rfid_uid st r Hpost. split.
  - intros Hcode reason Hreason.
    assert (Hsel : (status_code r =? 200) = false
                   /\ ((status_code r =? 403) || (status_code r =? 404)) = true).
    { destruct Hcode as [-> | ->]; split; reflexivity. }
    destruct Hsel as [H200 H40x].
    destruct Hreason as [[Hbody ->] | (fields & Hbody & ->)].
    + eexists. split.
      * open_engine. rewrite Hpost. cbn. rewrite H200, H40x, Hbody. cbn. reflexivity.
      * read_log.
    + eexists. split.
      * open_engine. rewrite Hpost. cbn. rewrite H200, H40x, Hbody. cbn. reflexivity.
      * read_log.
  - intros N200 N403 N404.
    apply Z.eqb_neq in N200, N403, N404.
    eexists. split.
    + open_engine. rewrite Hpost. cbn. rewrite N200, N403, N404. cbn. reflexivity.
    + read_log.
Qed.

(** C6: a verify response with status 403 or 404 whose body parses to
    something other than an object (a string, a list, a number, [null]) is
    not denied: the lookup of its message raises [AttributeError], which no
    handler of [validate_rfid] catches.  The error leaves [validate_rfid]
    after the one request, with no denial announced, no flash and no
    record. *)
Theorem C6_non_object_body_escapes :
  forall net rfid_uid st r v,
    session_post net (requests st) VERIFY_RFID_URL (uid_payload rfid_uid)
      = Responded r ->
    status_code r = 403 \/ status_code r = 404 ->
    json_body r = Some v ->
    (forall fields, v <> PyDict fields) ->
    exists t,
      validate_rfid net rfid_uid st
        = (Raised AttributeError, after_request (relay st) st, t)
      /\ t = [EvPrint [Txt "[INFO] Sending verification request for RFID=";
                       Txt rfid_uid; Txt "..."];
              EvPost VERIFY_RFID_URL (PyDict [("rfid_uid", PyStr rfid_uid)])
                REQUEST_TIMEOUT]
      /\ denial_reasons t = []
      /\ relay_pulses t = []
      /\ log_records t = [].
Proof.
  intros net rfid_uid st r v Hpost Hcode Hbody Hv.
  assert (Hsel : (status_code r =? 200) = false
                 /\ ((status_code r =? 403) || (status_code r =? 404)) = true).
  { destruct Hcode as [-> | ->]; split; reflexivity. }
  destruct Hsel as [H200 H40x].
  eexists. split.
  - open_engine. rewrite Hpost. cbn. rewrite H200, H40x, Hbody. cbn.
    destruct v; try reflexivity. exfalso. eapply Hv. reflexivity.
  - repeat split.
Qed.

Lemma C6_non_object_body_escapes_witness :
  let net := {| session_post := fun _ _ _ => replied 403 (Some (PyStr "Forbidden"));
                json_error_is_request_exception := true |} in
  let st := {| relay := LOW; requests := 0 |} in
  (exists t,
     validate_rfid net "C3" st = (Raised AttributeError, after_request LOW st, t)
     /\ denial_reasons t = [] /\ relay_pulses t = [] /\ log_records t = [])
  /\ fst (fst (scan_loop net [Line "C3"; Line "D4"] st)) = Raised AttributeError
  /\ exit_status (fst (fst (script net [Line "C3"; Line "D4"] st))) = 0.
Proof.
  intros net st. split; [|split; reflexivity].
  destruct (C6_non_object_body_escapes net "C3" st
              {| status_code := 403; json_body := Some (PyStr "Forbidden") |}
              (PyStr "Forbidden") eq_refl (or_introl eq_refl) eq_refl)
    as (t & Hrun & _ & Hden & Hpulses & Hlog).
  - intros fields. discriminate.
  - exists t. repeat split; assumption.
Defined.

(** ** Grants *)

(** C4, as stated, fails for a status that is JSON [null]: it is a value
    other than "assigned", no activation request is made, and yet the door
    stays shut; the attempt is denied. *)
Lemma C4_null_status_is_denied :
  let guest := PyDict [("id", PyInt 7); ("name", PyStr "Jo")] in
  let d := [("rfid", PyDict [("status", PyNone)]); ("guest", guest)] in
  let body := [("success", PyBool true); ("data", PyDict d)] in
  let net := {| session_post := fun _ _ _ => replied 200 (Some (PyDict body));
                json_error_is_request_exception := true |} in
  let '(res, st', t) := validate_rfid net "A1" {| relay := LOW; requests := 0 |} in
  py_ne_str PyNone "assigned" = true
  /\ res = Returned tt
  /\ requests_sent t = [(VERIFY_RFID_URL, PyDict [("rfid_uid", PyStr "A1")])]
  /\ door_engaged t = false
  /\ relay_pulses t = [150; 150; 150; 150; 150; 150]
  /\ log_records t = [(LOG_DENIED_URL, PyDict [("rfid_uid", PyStr "A1")])]
  /\ denial_reasons t = [PyStr "RFID A1 could not be activated."].
Proof. cbn. repeat split. Qed.

(** C4, amended: a verify response with status 200, [success] set and a
    credential status that is neither [null] nor "assigned" opens the door:
    the relay is HIGH for the unlock duration, five seconds, and LOW
    afterwards, no activation request is made, nothing is denied, and one
    record goes to the granted-log endpoint, holding the identifier and the
    guest's id when the response carries guest data and [None] otherwise.
    A status that is [null] is denied, as an absent one is: six flashes, one
    record to the denied-log endpoint, no activation request and no
    engagement. *)
Theorem C4_settled_status_is_granted :
  (forall net rfid_uid st fields d r status,
     session_post net (requests st) VERIFY_RFID_URL (uid_payload rfid_uid)
       = replied 200 (Some (PyDict fields)) ->
     truthy (dict_get_default fields "success" PyNone) = true ->
     dict_get fields "data" = Some (PyDict d) ->
     dict_get d "rfid" = Some (PyDict r) ->
     dict_get r "status" = Some status ->
     is_None status = false ->
     py_ne_str status "assigned" = true ->
     optional_record (dict_get d "guest") = true ->
     optional_record (dict_get d "room") = true ->
     exists t,
       validate_rfid net rfid_uid st = (Returned tt, after_request LOW st, t)
       /\ relay_pulses t = [5000]
       /\ relay_writes t = [HIGH; LOW]
       /\ sleep_total t = 5000
       /\ log_records t
          = [(LOG_GRANTED_URL,
              PyDict [("rfid_uid", PyStr rfid_uid);
                      ("guest_id",
                       match dict_get d "guest" with
                       | Some (PyDict (f :: fs)) =>
                           match dict_get (f :: fs) "id" with
                           | Some id => id
                           | None => PyNone
                           end
                       | _ => PyNone
                       end)])]
       /\ denial_reasons t = []
       /\ requests_sent t = [(VERIFY_RFID_URL, PyDict [("rfid_uid", PyStr rfid_uid)])])
  /\ (forall net rfid_uid st fields d r,
        session_post net (requests st) VERIFY_RFID_URL (uid_payload rfid_uid)
          = replied 200 (Some (PyDict fields)) ->
        truthy (dict_get_default fields "success" PyNone) = true ->
        dict_get fields "data" = Some (PyDict d) ->
        dict_get d "rfid" = Some (PyDict r) ->
        dict_get r "status" = Some PyNone ->
        optional_record (dict_get d "guest") = true ->
        optional_record (dict_get d "room") = true ->
        exists t,
          validate_rfid net rfid_uid st = (Returned tt, after_request LOW st, t)
          /\ relay_pulses t = [150; 150; 150; 150; 150; 150]
          /\ door_engaged t = false
          /\ log_records t = [(LOG_DENIED_URL, PyDict [("rfid_uid", PyStr rfid_uid)])]
          /\ denial_reasons t
             = [PyStr ("RFID " ++ rfid_uid ++ " could not be activated.")%string]
          /\ requests_sent t
             = [(VERIFY_RFID_URL, PyDict [("rfid_uid", PyStr rfid_uid)])]).
Proof.
  split.
  - intros net rfid_uid st fields d r status Hpost Hflag Hdata Hrfid Hstatus
      Hnn Hne Hguest Hroom.
    change (match dict_get d "guest" with
            | Some (PyDict (f :: fs)) =>
                match dict_get (f :: fs) "id" with
                | Some id => id
                | None => PyNone
                end
            | _ => PyNone
            end) with (guest_id_of (dict_get d "guest")).
    apply optional_record_cases in Hguest, Hroom.
    apply (dict_get_default_some _ _ (PyDict [])) in Hdata, Hrfid.
    apply (dict_get_default_some _ _ PyNone) in Hstatus.
    open_engine. rewrite Hpost. cbn. rewrite Hflag. cbn.
    rewrite Hdata. cbn. rewrite Hrfid. cbn. rewrite Hstatus, Hne.
    destruct Hguest as [(g & gs & Hg & _ & ->) | (Hg & _ & ->)];
      destruct Hroom as [(m & ms & _ & Hm & _) | (_ & Hm & _)];
      rewrite ?Hg, ?Hm; cbn; rewrite ?Hnn; cbn.
    all: eexists; split; [reflexivity | read_log].
  - intros net rfid_uid st fields d r Hpost Hflag Hdata Hrfid Hstatus Hguest Hroom.
    apply optional_record_cases in Hguest, Hroom.
    apply (dict_get_default_some _ _ (PyDict [])) in Hdata, Hrfid.
    apply (dict_get_default_some _ _ PyNone) in Hstatus.
    open_engine. rewrite Hpost. cbn. rewrite Hflag. cbn.
    rewrite Hdata. cbn. rewrite Hrfid. cbn. rewrite Hstatus.
    destruct Hguest as [(g & gs & Hg & _ & _) | (Hg & _ & _)];
      destruct Hroom as [(m & ms & _ & Hm & _) | (_ & Hm & _)];
      rewrite ?Hg, ?Hm; cbn.
    all: eexists; split; [reflexivity | read_log].
Qed.

Lemma C4_settled_status_is_granted_witness :
  let guest := PyDict [("id", PyInt 7); ("name", PyStr "Jo")] in
  let d := [("rfid", PyDict [("status", PyStr "active")]); ("guest", guest)] in
  let body := [("success", PyBool true); ("data", PyDict d)] in
  let net := {| session_post := fun _ _ _ => replied 200 (Some (PyDict body));
                json_error_is_request_exception := true |} in
  let d0 := [("rfid", PyDict [("status", PyNone)]); ("guest", guest)] in
  let body0 := [("success", PyBool true); ("data", PyDict d0)] in
  let net0 := {| session_post := fun _ _ _ => replied 200 (Some (PyDict body0));
                 json_error_is_request_exception := true |} in
  let st := {| relay := LOW; requests := 0 |} in
  (exists t,
     validate_rfid net "A1" st = (Returned tt, after_request LOW st, t)
     /\ relay_pulses t = [5000]
     /\ log_records t
        = [(LOG_GRANTED_URL, PyDict [("rfid_uid", PyStr "A1"); ("guest_id", PyInt 7)])])
  /\ (exists t,
        validate_rfid net0 "A1" st = (Returned tt, after_request LOW st, t)
        /\ door_engaged t = false
        /\ log_records t = [(LOG_DENIED_URL, PyDict [("rfid_uid", PyStr "A1")])]).
Proof.
  intros guest d body net d0 body0 net0 st.
  destruct C4_settled_status_is_granted as [Hgrant Hnull]. split.
  - destruct (Hgrant net "A1" st body d
                [("status", PyStr "active")] (PyStr "active")
                eq_refl eq_refl eq_refl eq_refl eq_refl eq_refl eq_refl eq_refl eq_refl)
      as (t & Hrun & Hpulses & _ & _ & Hlog & _).
    exists t. repeat split; assumption.
  - destruct (Hnull net0 "A1" st body0 d0 [("status", PyNone)]
                eq_refl eq_refl eq_refl eq_refl eq_refl eq_refl eq_refl)
      as (t & Hrun & _ & Hdoor & Hlog & _).
    exists t. repeat split; assumption.
Defined.

(** ** Activation *)

(** When the verify response has status 200, [success] set and the
    credential status "assigned", the activation request is sent before the
    relay is touched; and when that request fails (transport error, status
    other than 200, unset [success] flag, or a body that does not parse, the
    decoding error being a request exception) the attempt is denied: six
    flashes, a record to the denied-log endpoint, and no engagement. *)
Lemma assigned_is_activated_before_unlock :
  forall net rfid_uid st fields d r result,
    session_post net (requests st) VERIFY_RFID_URL (uid_payload rfid_uid)
      = replied 200 (Some (PyDict fields)) ->
    truthy (dict_get_default fields "success" PyNone) = true ->
    dict_get fields "data" = Some (PyDict d) ->
    dict_get d "rfid" = Some (PyDict r) ->
    dict_get r "status" = Some (PyStr "assigned") ->
    optional_record (dict_get d "guest") = true ->
    optional_record (dict_get d "room") = true ->
    session_post net (S (requests st)) ACTIVATE_RFID_URL (uid_payload rfid_uid)
      = result ->
    exists res st' t,
      validate_rfid net rfid_uid st = (res, st', t)
      /\ (exists pre rest,
            t = pre ++ EvPost ACTIVATE_RFID_URL (uid_payload rfid_uid) REQUEST_TIMEOUT
                       :: rest
            /\ relay_pulses pre = [])
      /\ (activation_failed result = true ->
          (unparseable result = true -> json_error_is_request_exception net = true) ->
          res = Returned tt
          /\ st' = {| relay := LOW; requests := S (S (requests st)) |}
          /\ Denied rfid_uid
               (PyStr ("RFID " ++ rfid_uid ++ " could not be activated.")%string) t
          /\ door_engaged t = false).
Proof.
  intros net rfid_uid st fields d r result Hpost Hflag Hdata Hrfid Hstatus
    Hguest Hroom Hact.
  apply optional_record_cases in Hguest, Hroom.
  apply (dict_get_default_some _ _ (PyDict [])) in Hdata, Hrfid.
  apply (dict_get_default_some _ _ PyNone) in Hstatus.
  open_engine. rewrite Hpost. cbn. rewrite Hflag. cbn.
  rewrite Hdata. cbn. rewrite Hrfid. cbn. rewrite Hstatus. cbn.
  destruct Hguest as [(g & gs & Hg & _ & _) | (Hg & _ & _)];
    destruct Hroom as [(m & ms & _ & Hm & _) | (_ & Hm & _)];
    rewrite ?Hg, ?Hm; cbn; rewrite Hact.
  all: destruct result as [resp | e]; cbn in Hact |- *.
  all: repeat branch.
  all: do 3 eexists; split; [reflexivity|]; split; [split_log 7%nat|].
  all: intros Hfail Hlib; cbn in Hfail, Hlib.
  all: try discriminate Hfail.
  all: try (specialize (Hlib eq_refl); congruence).
  all: try (destruct e; try discriminate Hfail; cbn in *; discriminate).
  all: read_log.
Qed.

(** C1: an activation response with status 200 whose body does not parse is
    not denied where the decoding error is not a request exception (the HTTP
    library before its release 2.27): [activate_rfid_if_assigned] catches
    request exceptions only, the error leaves [validate_rfid] after the two
    requests, and nothing is announced, flashed or recorded.  The relay is
    not touched. *)
Theorem C1_activation_decode_error_escapes :
  forall net rfid_uid st fields d r,
    session_post net (requests st) VERIFY_RFID_URL (uid_payload rfid_uid)
      = replied 200 (Some (PyDict fields)) ->
    truthy (dict_get_default fields "success" PyNone) = true ->
    dict_get fields "data" = Some (PyDict d) ->
    dict_get d "rfid" = Some (PyDict r) ->
    dict_get r "status" = Some (PyStr "assigned") ->
    optional_record (dict_get d "guest") = true ->
    optional_record (dict_get d "room") = true ->
    session_post net (S (requests st)) ACTIVATE_RFID_URL (uid_payload rfid_uid)
      = replied 200 None ->
    json_error_is_request_exception net = false ->
    exists t,
      validate_rfid net rfid_uid st
        = (Raised JSONDecodeError,
           {| relay := relay st; requests := S (S (requests st)) |}, t)
      /\ requests_sent t
         = [(VERIFY_RFID_URL, PyDict [("rfid_uid", PyStr rfid_uid)]);
            (ACTIVATE_RFID_URL, PyDict [("rfid_uid", PyStr rfid_uid)])]
      /\ denial_reasons t = []
      /\ relay_writes t = []
      /\ relay_pulses t = []
      /\ log_records t = [].
Proof.
  intros net rfid_uid st fields d r Hpost Hflag Hdata Hrfid Hstatus
    Hguest Hroom Hact Hlib.
  apply optional_record_cases in Hguest, Hroom.
  apply (dict_get_default_some _ _ (PyDict [])) in Hdata, Hrfid.
  apply (dict_get_default_some _ _ PyNone) in Hstatus.
  open_engine. rewrite Hpost. cbn. rewrite Hflag. cbn.
  rewrite Hdata. cbn. rewrite Hrfid. cbn. rewrite Hstatus. cbn.
  destruct Hguest as [(g & gs & Hg & _ & _) | (Hg & _ & _)];
    destruct Hroom as [(m & ms & _ & Hm & _) | (_ & Hm & _)];
    rewrite ?Hg, ?Hm; cbn; rewrite Hact; cbn; rewrite Hlib.
  all: eexists; split; [reflexivity | repeat split].
Qed.

Lemma C1_activation_decode_error_escapes_witness :
  let d := [("rfid", PyDict [("status", PyStr "assigned")])] in
  let body := [("success", PyBool true); ("data", PyDict d)] in
  let net := {| session_post := fun n _ _ =>
                  match n with
                  | O => replied 200 (Some (PyDict body))
                  | _ => replied 200 None
                  end;
                json_error_is_request_exception := false |} in
  let st := {| relay := LOW; requests := 0 |} in
  (exists t,
     validate_rfid net "B2" st
       = (Raised JSONDecodeError, {| relay := LOW; requests := 2 |}, t)
     /\ denial_reasons t = [] /\ relay_pulses t = [] /\ log_records t = [])
  /\ exit_status (fst (fst (script net [Line "B2"; Line "B3"] st))) = 0
  /\ requests_sent (snd (script net [Line "B2"; Line "B3"] st))
     = [(VERIFY_RFID_URL, PyDict [("rfid_uid", PyStr "B2")]);
        (ACTIVATE_RFID_URL, PyDict [("rfid_uid", PyStr "B2")])].
Proof.
  intros d body net st. split; [|split; reflexivity].
  destruct (C1_activation_decode_error_escapes net "B2" st body d
              [("status", PyStr "assigned")]
              eq_refl eq_refl eq_refl eq_refl eq_refl eq_refl eq_refl eq_refl eq_refl)
    as (t & Hrun & _ & Hden & _ & Hpulses & Hlog).
  exists t. repeat split; assumption.
Defined.

(** C10, as stated, fails: a verify response with [success] set and no
    status in its [rfid] object makes no activation request, and the door
    stays shut; the attempt is denied. *)
Lemma C10_absent_status_is_not_unlocked :
  let guest := PyDict [("id", PyInt 7); ("name", PyStr "Jo")] in
  let d := [("rfid", PyDict []); ("guest", guest)] in
  let body := [("success", PyBool true); ("data", PyDict d)] in
  let net := {| session_post := fun _ _ _ => replied 200 (Some (PyDict body));
                json_error_is_request_exception := true |} in
  let '(res, st', t) := validate_rfid net "A1" {| relay := LOW; requests := 0 |} in
  res = Returned tt
  /\ requests_sent t = [(VERIFY_RFID_URL, uid_payload "A1")]
  /\ door_engaged t = false
  /\ relay_pulses t <> [1000 * UNLOCK_DURATION_SECONDS]
  /\ log_records t = [(LOG_DENIED_URL, uid_payload "A1")]
  /\ denial_reasons t = [PyStr "RFID A1 could not be activated."].
Proof. cbn. repeat split. discriminate. Qed.

(** C10, amended: a verify response with [success] set and no status in its
    [rfid] object makes no activation request and is denied, with the reason
    "RFID <uid> could not be activated."; an activation response with
    [success] set and no status, in a [data] object or without one, gives the
    status "unknown", and the door is unlocked. *)
Theorem C10_absent_status_denied_unknown_status_granted :
  (forall net rfid_uid st fields d r,
     session_post net (requests st) VERIFY_RFID_URL (uid_payload rfid_uid)
       = replied 200 (Some (PyDict fields)) ->
     truthy (dict_get_default fields "success" PyNone) = true ->
     dict_get fields "data" = Some (PyDict d) ->
     dict_get d "rfid" = Some (PyDict r) ->
     dict_get r "status" = None ->
     optional_record (dict_get d "guest") = true ->
     optional_record (dict_get d "room") = true ->
     exists t,
       validate_rfid net rfid_uid st = (Returned tt, after_request LOW st, t)
       /\ requests_sent t = [(VERIFY_RFID_URL, uid_payload rfid_uid)]
       /\ Denied rfid_uid
            (PyStr ("RFID " ++ rfid_uid ++ " could not be activated.")%string) t
       /\ door_engaged t = false)
  /\ (forall net rfid_uid st fields d r answer,
        session_post net (requests st) VERIFY_RFID_URL (uid_payload rfid_uid)
          = replied 200 (Some (PyDict fields)) ->
        truthy (dict_get_default fields "success" PyNone) = true ->
        dict_get fields "data" = Some (PyDict d) ->
        dict_get d "rfid" = Some (PyDict r) ->
        dict_get r "status" = Some (PyStr "assigned") ->
        optional_record (dict_get d "guest") = true ->
        optional_record (dict_get d "room") = true ->
        session_post net (S (requests st)) ACTIVATE_RFID_URL (uid_payload rfid_uid)
          = replied 200 (Some (PyDict answer)) ->
        truthy (dict_get_default answer "success" PyNone) = true ->
        dict_get answer "data" = None
        \/ (exists updated,
              dict_get answer "data" = Some (PyDict updated)
              /\ dict_get updated "status" = None) ->
        exists t,
          validate_rfid net rfid_uid st
            = (Returned tt, {| relay := LOW; requests := S (S (requests st)) |}, t)
          /\ In (EvPrint [Txt "[INFO] RFID "; Txt rfid_uid;
                          Txt " successfully activated (status=";
                          Val (PyStr "unknown"); Txt ")."]) t
          /\ Granted rfid_uid (guest_id_of (dict_get d "guest")) t
          /\ requests_sent t = [(VERIFY_RFID_URL, uid_payload rfid_uid);
                                (ACTIVATE_RFID_URL, uid_payload rfid_uid)]).
Proof.
  split.
  - intros net rfid_uid st fields d r Hpost Hflag Hdata Hrfid Hstatus Hguest Hroom.
    apply optional_record_cases in Hguest, Hroom.
    apply (dict_get_default_some _ _ (PyDict [])) in Hdata, Hrfid.
    apply (dict_get_default_none _ _ PyNone) in Hstatus.
    open_engine. rewrite Hpost. cbn. rewrite Hflag. cbn.
    rewrite Hdata. cbn. rewrite Hrfid. cbn. rewrite Hstatus.
    destruct Hguest as [(g & gs & Hg & _ & _) | (Hg & _ & _)];
      destruct Hroom as [(m & ms & _ & Hm & _) | (_ & Hm & _)];
      rewrite ?Hg, ?Hm; cbn.
    all: eexists; split; [reflexivity | read_log].
  - intros net rfid_uid st fields d r answer Hpost Hflag Hdata Hrfid Hstatus
      Hguest Hroom Hact Hok Hupdated.
    apply optional_record_cases in Hguest, Hroom.
    apply (dict_get_default_some _ _ (PyDict [])) in Hdata, Hrfid.
    apply (dict_get_default_some _ _ PyNone) in Hstatus.
    assert (Hnew : exists updated,
               dict_get_default answer "data" (PyDict []) = PyDict updated
               /\ dict_get_default updated "status" (PyStr "unknown") = PyStr "unknown").
    { destruct Hupdated as [Hnone | (updated & Hsome & Hnone)].
      - exists []. split; [|reflexivity].
        apply dict_get_default_none. assumption.
      - exists updated. split.
        + apply dict_get_default_some. assumption.
        + apply dict_get_default_none. assumption. }
    destruct Hnew as (updated & Hupd & Hunknown).
    open_engine. rewrite Hpost. cbn. rewrite Hflag. cbn.
    rewrite Hdata. cbn. rewrite Hrfid. cbn. rewrite Hstatus. cbn.
    destruct Hguest as [(g & gs & Hg & _ & ->) | (Hg & _ & ->)];
      destruct Hroom as [(m & ms & _ & Hm & _) | (_ & Hm & _)];
      rewrite ?Hg, ?Hm; cbn; rewrite Hact; cbn; rewrite Hok; cbn;
      rewrite Hupd; cbn; rewrite Hunknown; cbn.
    all: eexists; split; [reflexivity|].
    all: split; [cbn; tauto | read_log].
Qed.

Lemma C10_absent_status_denied_unknown_status_granted_witness :
  let st := {| relay := LOW; requests := 0 |} in
  let answer := [("success", PyBool true); ("data", PyDict [])] in
  let bare := [("success", PyBool true); ("data", PyDict [("rfid", PyDict [])])] in
  let fresh := [("success", PyBool true);
                ("data", PyDict [("rfid", PyDict [("status", PyStr "assigned")])])] in
  let net1 := {| session_post := fun _ _ _ => replied 200 (Some (PyDict bare));
                 json_error_is_request_exception := true |} in
  let net2 := {| session_post := fun n _ _ =>
                   match n with
                   | O => replied 200 (Some (PyDict fresh))
                   | _ => replied 200 (Some (PyDict answer))
                   end;
                 json_error_is_request_exception := true |} in
  (exists t,
     validate_rfid net1 "A1" st = (Returned tt, after_request LOW st, t)
     /\ door_engaged t = false)
  /\ (exists t,
        validate_rfid net2 "B2" st = (Returned tt, {| relay := LOW; requests := 2 |}, t)
        /\ Granted "B2" PyNone t).
Proof.
  intros st answer bare fresh net1 net2.
  destruct C10_absent_status_denied_unknown_status_granted as [Habsent Hunknown].
  split.
  - destruct (Habsent net1 "A1" st bare [("rfid", PyDict [])] []
                eq_refl eq_refl eq_refl eq_refl eq_refl eq_refl eq_refl)
      as (t & Hrun & _ & _ & Hdoor).
    exists t. split; assumption.
  - destruct (Hunknown net2 "B2" st fresh
                [("rfid", PyDict [("status", PyStr "assigned")])]
                [("status", PyStr "assigned")] answer
                eq_refl eq_refl eq_refl eq_refl eq_refl eq_refl eq_refl eq_refl eq_refl
                (or_intror (ex_intro _ [] (conj eq_refl eq_refl))))
      as (t & Hrun & _ & Hgranted & _).
    exists t. split; assumption.
Defined.

(** ** The relay at rest *)

Lemma high_spans_low_acc t : forall a, high_spans LOW a t = high_spans LOW 0 t.
Proof.
  induction t as [|ev t IH]; intros a; [reflexivity|].
  destruct ev; cbn; auto.
  - destruct (pin =? RELAY_PIN); [destruct v|]; auto.
  - rewrite IH. symmetry. apply IH.
Qed.

Lemma high_spans_app t1 t2 : forall lvl a,
  level_after lvl t1 = LOW ->
  high_spans lvl a (t1 ++ t2) = high_spans lvl a t1 ++ high_spans LOW 0 t2.
Proof.
  induction t1 as [|ev t1 IH]; intros lvl a Hend.
  - cbn in *. subst lvl. apply high_spans_low_acc.
  - destruct ev; cbn in *; auto.
    destruct (pin =? RELAY_PIN); [|auto].
    destruct lvl, v; cbn; auto. rewrite IH by assumption. reflexivity.
Qed.

Lemma level_after_app t1 t2 lvl :
  level_after lvl (t1 ++ t2) = level_after (level_after lvl t1) t2.
Proof.
  revert lvl. induction t1 as [|ev t1 IH]; intros lvl; [reflexivity|].
  destruct ev; cbn; auto.
Qed.

Lemma rests_low_unless_weaken (P Q : Prop) {A} (m : M A) :
  (P -> Q) -> rests_low_unless P m -> rests_low_unless Q m.
Proof.
  intros HPQ Hm st Hlow. specialize (Hm st Hlow).
  destruct (m st) as [[r st'] t]. destruct Hm as (H1 & H2 & [H3 | (H3 & H4)]).
  - auto.
  - split; [assumption|]. split; [assumption|]. right. split; [auto | assumption].
Qed.

Section RestsLow.

Context (signalled : Prop) {A B : Type}.

Lemma rests_low_ret (a : A) : rests_low_unless signalled (ret a).
Proof. intros st H. cbn. auto. Qed.

Lemma rests_low_raise e : rests_low_unless signalled (@raise A e).
Proof. intros st H. cbn. auto. Qed.

Lemma rests_low_bind (m : M A) (f : A -> M B) :
  rests_low_unless signalled m ->
  (forall a, rests_low_unless signalled (f a)) ->
  rests_low_unless signalled (bind m f).
Proof.
  intros Hm Hf st Hst. unfold bind.
  specialize (Hm st Hst). destruct (m st) as [[[a|e] st1] t1].
  2: { destruct Hm as (H1 & H2 & [H3 | (H3 & H4 & H5)]); [auto|].
       injection H4 as ->. auto 6. }
  destruct Hm as (H1 & H2 & [H3 | (_ & H3 & _)]); [|discriminate H3].
  specialize (Hf a st1 H3). destruct (f a st1) as [[r st2] t2].
  destruct Hf as (H4 & H5 & H6).
  rewrite H3 in H1. symmetry in H1. split; [|split].
  - rewrite level_after_app, H1. assumption.
  - unfold relay_pulses in *. rewrite high_spans_app by assumption.
    apply Forall_app. split; assumption.
  - destruct H6 as [H6 | (H6 & H7 & t0 & ms & ->)]; [left; assumption|].
    right. split; [assumption|]. split; [assumption|].
    exists (t1 ++ t0), ms. apply app_assoc.
Qed.

Lemma rests_low_try_except (m : M A) handles h :
  handles KeyboardInterrupt = false ->
  rests_low_unless signalled m ->
  (forall e, rests_low_unless signalled (h e)) ->
  rests_low_unless signalled (try_except m handles h).
Proof.
  intros Hki Hm Hh st Hst. unfold try_except.
  specialize (Hm st Hst). destruct (m st) as [[[a|e] st1] t1]; [exact Hm|].
  destruct (handles e) eqn:He; [|exact Hm].
  destruct Hm as (H1 & H2 & [H3 | (_ & H3 & _)]);
    [|injection H3 as ->; congruence].
  specialize (Hh e st1 H3). destruct (h e st1) as [[r st2] t2].
  destruct Hh as (H4 & H5 & H6).
  rewrite H3 in H1. symmetry in H1. split; [|split].
  - rewrite level_after_app, H1. assumption.
  - unfold relay_pulses in *. rewrite high_spans_app by assumption.
    apply Forall_app. split; assumption.
  - destruct H6 as [H6 | (H6 & H7 & t0 & ms & ->)]; [left; assumption|].
    right. split; [assumption|]. split; [assumption|].
    exists (t1 ++ t0), ms. apply app_assoc.
Qed.

End RestsLow.

Lemma rests_low_print signalled line : rests_low_unless signalled (print line).
Proof. intros st H. cbn. auto. Qed.

Lemma rests_low_post signalled net url payload :
  rests_low_unless signalled (post net url payload).
Proof.
  intros st H. unfold post.
  destruct (session_post net (requests st) url payload); cbn; auto.
Qed.

Lemma rests_low_py_get signalled v key default :
  rests_low_unless signalled (py_get v key default).
Proof. destruct v; cbn; first [apply rests_low_ret | apply rests_low_raise]. Qed.

Lemma rests_low_response_json signalled r :
  rests_low_unless signalled (response_json r).
Proof.
  unfold response_json.
  destruct (json_body r); [apply rests_low_ret | apply rests_low_raise].
Qed.

Lemma rests_low_log signalled endpoint payload msg :
  rests_low_unless signalled (log_access_attempt endpoint payload msg).
Proof. intros st H. cbn. auto. Qed.

(** [unlock_door]: one pulse of the unlock duration, or the relay left HIGH
    by the signal that cut the sleep short. *)
Lemma unlock_door_run (sig : signals) st :
  (sig 0%nat = false ->
   unlock_door (sig := sig) st
   = (Returned tt, {| relay := LOW; requests := requests st |},
      [EvPrint [Txt "[INFO] Unlocking door..."];
       EvGpioOutput RELAY_PIN HIGH;
       EvSleep (1000 * UNLOCK_DURATION_SECONDS);
       EvGpioOutput RELAY_PIN LOW;
       EvPrint [Txt "[INFO] Door locked."]]))
  /\ (sig 0%nat = true ->
      unlock_door (sig := sig) st
      = (Raised KeyboardInterrupt, {| relay := HIGH; requests := requests st |},
         [EvPrint [Txt "[INFO] Unlocking door..."];
          EvGpioOutput RELAY_PIN HIGH;
          EvSleepInterrupted (1000 * UNLOCK_DURATION_SECONDS)])).
Proof.
  split; intros H; unfold unlock_door, time_sleep, bind, print, emit, raise,
    GPIO_output; rewrite H; reflexivity.
Qed.

Lemma rests_low_unlock_door (sig : signals) :
  rests_low_unless (exists k, sig k = true) (unlock_door (sig := sig)).
Proof.
  intros st Hlow. destruct (unlock_door_run sig st) as [Hquiet Hcut].
  destruct (sig 0%nat) eqn:H0.
  - rewrite (Hcut eq_refl). cbn. split; [reflexivity|]. split.
    + repeat constructor; unfold UNLOCK_DURATION_SECONDS; lia.
    + right. split; [exists 0%nat; assumption|]. split; [reflexivity|].
      exists [EvPrint [Txt "[INFO] Unlocking door..."]; EvGpioOutput RELAY_PIN HIGH],
        (1000 * UNLOCK_DURATION_SECONDS). reflexivity.
  - rewrite (Hquiet eq_refl). cbn. split; [reflexivity|]. split; [|left; reflexivity].
    repeat constructor; unfold UNLOCK_DURATION_SECONDS; lia.
Qed.

Lemma signalled_later n (sig : signals) :
  (exists k, later n sig k = true) -> exists k, sig k = true.
Proof. intros (k & Hk). exists (n + k)%nat. exact Hk. Qed.

(** The flashing loop, for an interval that [time.sleep] accepts and that is
    no longer than the unlock duration. *)
Lemma rests_low_flash_loop count interval :
  0 <= interval <= 1000 * UNLOCK_DURATION_SECONDS ->
  forall sig : signals,
    rests_low_unless (exists k, sig k = true) (flash_loop (sig := sig) count interval).
Proof.
  intros Hint.
  assert (Hms : 0 <= interval <= 5000)
    by (unfold UNLOCK_DURATION_SECONDS in Hint; lia).
  induction count as [|n IH]; intros sig; [apply rests_low_ret|].
  intros st Hlow. cbn [flash_loop].
  unfold bind at 1, GPIO_output at 1. unfold bind at 1, time_sleep at 1.
  replace (interval <? 0) with false by (symmetry; apply Z.ltb_ge; lia).
  destruct (sig 0%nat) eqn:H0.
  - cbn. split; [reflexivity|]. split; [repeat constructor; lia|].
    right. split; [exists 0%nat; assumption|]. split; [reflexivity|].
    exists [EvGpioOutput RELAY_PIN HIGH], interval. reflexivity.
  - unfold emit at 1. unfold bind at 1, GPIO_output at 1.
    unfold bind at 1, time_sleep at 1.
    replace (interval <? 0) with false by (symmetry; apply Z.ltb_ge; lia).
    destruct (sig 1%nat) eqn:H1.
    + cbn. split; [reflexivity|]. split; [repeat constructor; lia|].
      left. reflexivity.
    + unfold emit at 1.
      specialize (IH (later 2 sig)
                     {| relay := if RELAY_PIN =? RELAY_PIN then LOW else
                                   relay {| relay := if RELAY_PIN =? RELAY_PIN
                                                     then HIGH else relay st;
                                            requests := requests st |};
                        requests := requests st |} eq_refl).
      cbn [relay requests] in IH |- *.
      destruct (flash_loop n interval _) as [[r st2] t2].
      destruct IH as (H2 & H3 & H4). cbn. split; [assumption|]. split.
      * rewrite high_spans_low_acc. constructor; [lia | exact H3].
      * destruct H4 as [H4 | (H4 & H5 & t0 & ms & ->)]; [left; assumption|].
        right. split; [apply (signalled_later 2 sig H4)|]. split; [assumption|].
        exists (EvGpioOutput RELAY_PIN HIGH :: EvSleep interval
                :: EvGpioOutput RELAY_PIN LOW :: EvSleep interval :: t0), ms.
        reflexivity.
Qed.

Lemma rests_low_flash_relay (sig : signals) count interval :
  0 <= interval <= 1000 * UNLOCK_DURATION_SECONDS ->
  rests_low_unless (exists k, sig k = true) (flash_relay (sig := sig) count interval).
Proof.
  intros Hint. unfold flash_relay.
  apply rests_low_bind; [apply rests_low_print|]. intros _.
  apply rests_low_bind; [apply rests_low_flash_loop; assumption|]. intros _.
  apply rests_low_print.
Qed.

Lemma rests_low_deny_access (sig : signals) uid reason :
  rests_low_unless (exists k, sig k = true) (deny_access (sig := sig) uid reason).
Proof.
  unfold deny_access.
  apply rests_low_bind; [apply rests_low_print|]. intros _.
  apply rests_low_bind; [|intros _; apply rests_low_log].
  apply rests_low_flash_relay. unfold FLASH_INTERVAL, UNLOCK_DURATION_SECONDS. lia.
Qed.

Create HintDb rests discriminated.
#[local] Hint Resolve rests_low_ret rests_low_raise rests_low_bind
  rests_low_print rests_low_post rests_low_py_get
  rests_low_response_json rests_low_unlock_door rests_low_deny_access
  rests_low_log : rests.
#[local] Hint Extern 1 (rests_low_unless _ (try_except _ _ _)) =>
  apply rests_low_try_except; [reflexivity | |] : rests.
#[local] Hint Extern 1 (rests_low_unless _ (if ?b then _ else _)) => destruct b : rests.
#[local] Hint Extern 1 (rests_low_unless _ (match ?x with Some _ => _ | None => _ end)) =>
  destruct x : rests.

Lemma rests_low_activate signalled net uid status :
  rests_low_unless signalled (activate_rfid_if_assigned net uid status).
Proof. unfold activate_rfid_if_assigned. auto 20 with rests. Qed.

Lemma rests_low_validate_rfid (sig : signals) net uid :
  rests_low_unless (exists k, sig k = true) (validate_rfid (sig := sig) net uid).
Proof.
  unfold validate_rfid, grant_or_activate, print_guest_info, print_room_info.
  pose proof (rests_low_activate (exists k, sig k = true) net uid).
  auto 30 with rests.
Qed.

(** The flashing loop, run to its end: [count] pulses of [interval] each. *)
Lemma flash_loop_run count interval :
  0 <= interval ->
  forall (sig : signals) st,
    (forall k, (k < 2 * count)%nat -> sig k = false) ->
    exists t,
      flash_loop (sig := sig) count interval st
        = (Returned tt,
           {| relay := match count with O => relay st | S _ => LOW end;
              requests := requests st |}, t)
      /\ level_after LOW t = LOW
      /\ forall rest, high_spans LOW 0 (t ++ rest)
                      = repeat interval count ++ high_spans LOW 0 rest.
Proof.
  intros Hint. induction count as [|n IH]; intros sig st Hsig.
  - exists []. destruct st. repeat split.
  - destruct (IH (later 2 sig) {| relay := LOW; requests := requests st |})
      as (t & Hrun & Hlevel & Hspans).
    { intros k Hk. apply Hsig. lia. }
    exists (EvGpioOutput RELAY_PIN HIGH :: EvSleep interval
            :: EvGpioOutput RELAY_PIN LOW :: EvSleep interval :: t).
    split; [|split].
    + cbn [flash_loop]. unfold bind, GPIO_output, time_sleep, emit.
      replace (interval <? 0) with false by (symmetry; apply Z.ltb_ge; lia).
      rewrite (Hsig 0%nat), (Hsig 1%nat) by lia. cbn.
      rewrite Hrun. destruct n; reflexivity.
    + exact Hlevel.
    + intros rest. cbn. rewrite high_spans_low_acc, Hspans. reflexivity.
Qed.

(** C5, as stated, fails: a signal arriving while [unlock_door] sleeps ends
    [validate_rfid] with the relay HIGH; and [flash_relay], called with a
    negative interval, ends with the relay HIGH as well, [time.sleep] having
    refused the interval after the first write. *)
Lemma C5_interrupted_unlock_leaves_relay_high :
  let d := [("rfid", PyDict [("status", PyStr "active")])] in
  let body := [("success", PyBool true); ("data", PyDict d)] in
  let net := {| session_post := fun _ _ _ => replied 200 (Some (PyDict body));
                json_error_is_request_exception := true |} in
  let ctrl_c : signals := fun k => (k =? 0)%nat in
  let st := {| relay := LOW; requests := 0 |} in
  (let '(res, st', t) := validate_rfid (sig := ctrl_c) net "A1" st in
   relay st = LOW
   /\ res = Raised KeyboardInterrupt
   /\ relay st' = HIGH
   /\ level_after LOW t = HIGH
   /\ relay_writes t = [HIGH])
  /\ (let '(res, st', t) := flash_relay (sig := no_signal) 6 (-150) st in
      res = Raised ValueError
      /\ relay st' = HIGH
      /\ relay_writes t = [HIGH]).
Proof. cbn. repeat split. Qed.

(** C5, amended: entered with the relay LOW, [validate_rfid] holds it HIGH
    for at most the unlock duration at a time, and leaves it LOW whatever
    the outcome, returned or raised, unless a signal cut a sleep short with
    the relay HIGH: then [KeyboardInterrupt] leaves [validate_rfid], the
    interrupted sleep being the last thing it did.  With no signal the relay
    is LOW afterwards.  [unlock_door], not interrupted, is one span of the
    unlock duration ending LOW, and interrupted it leaves the relay HIGH;
    [flash_relay], entered LOW with an interval that is not negative and not
    interrupted, is [flash_count] spans of [interval] ending LOW. *)
Theorem C5_relay_rests_low :
  (forall (sig : signals) net rfid_uid st,
     relay st = LOW ->
     exists res st' t,
       validate_rfid (sig := sig) net rfid_uid st = (res, st', t)
       /\ relay st' = level_after LOW t
       /\ Forall (fun d => d <= 1000 * UNLOCK_DURATION_SECONDS) (relay_pulses t)
       /\ ((forall k, sig k = false) -> relay st' = LOW)
       /\ (relay st' = HIGH ->
           res = Raised KeyboardInterrupt
           /\ (exists k, sig k = true)
           /\ exists t0 ms, t = t0 ++ [EvSleepInterrupted ms]))
  /\ (forall (sig : signals) st,
        (sig 0%nat = false ->
         exists t,
           unlock_door (sig := sig) st
             = (Returned tt, {| relay := LOW; requests := requests st |}, t)
           /\ level_after LOW t = LOW
           /\ relay_pulses t = [1000 * UNLOCK_DURATION_SECONDS])
        /\ (sig 0%nat = true ->
            exists t,
              unlock_door (sig := sig) st
                = (Raised KeyboardInterrupt,
                   {| relay := HIGH; requests := requests st |}, t)
              /\ level_after LOW t = HIGH))
  /\ (forall (sig : signals) flash_count interval st,
        relay st = LOW ->
        0 <= interval ->
        (forall k, (k < 2 * flash_count)%nat -> sig k = false) ->
        exists t,
          flash_relay (sig := sig) flash_count interval st
            = (Returned tt, {| relay := LOW; requests := requests st |}, t)
          /\ level_after LOW t = LOW
          /\ relay_pulses t = repeat interval flash_count).
Proof.
  split; [|split].
  - intros sig net rfid_uid st Hlow.
    pose proof (rests_low_validate_rfid sig net rfid_uid st Hlow) as H.
    destruct (validate_rfid net rfid_uid st) as [[res st'] t].
    exists res, st', t. split; [reflexivity|].
    destruct H as (H1 & H2 & H3). split; [assumption|]. split; [assumption|].
    split.
    + intros Hquiet. destruct H3 as [H3 | ((k & Hk) & _)]; [assumption|].
      rewrite Hquiet in Hk. discriminate.
    + intros Hhigh. destruct H3 as [H3 | (H3 & H4 & H5)]; [congruence|].
      repeat split; assumption.
  - intros sig st. destruct (unlock_door_run sig st) as [Hquiet Hcut]. split.
    + intros H0. eexists. split; [apply (Hquiet H0)|]. split; reflexivity.
    + intros H0. eexists. split; [apply (Hcut H0)|]. reflexivity.
  - intros sig flash_count interval st Hlow Hint Hsig.
    destruct (flash_loop_run flash_count interval Hint sig st Hsig)
      as (t & Hrun & Hlevel & Hspans).
    exists (EvPrint [Txt "[WARN] Flashing relay for access denial."]
            :: t ++ [EvPrint [Txt "[WARN] Access denial flash complete."]]).
    split; [|split].
    + unfold flash_relay, bind, print, emit. rewrite Hrun. cbn.
      destruct flash_count; [rewrite Hlow|]; reflexivity.
    + cbn. rewrite level_after_app, Hlevel. reflexivity.
    + unfold relay_pulses. cbn. rewrite Hspans. cbn. apply app_nil_r.
Qed.

Lemma C5_relay_rests_low_witness :
  let net := {| session_post := fun _ _ _ => replied 404 None;
                json_error_is_request_exception := true |} in
  let ctrl_c : signals := fun k => (k =? 0)%nat in
  let st := {| relay := LOW; requests := 0 |} in
  (exists res st' t,
     validate_rfid (sig := no_signal) net "Z9" st = (res, st', t)
     /\ relay st' = LOW)
  /\ (exists t,
        unlock_door (sig := no_signal) st = (Returned tt, st, t)
        /\ relay_pulses t = [5000])
  /\ (exists t,
        unlock_door (sig := ctrl_c) st
          = (Raised KeyboardInterrupt, {| relay := HIGH; requests := 0 |}, t)
        /\ level_after LOW t = HIGH)
  /\ (exists t,
        flash_relay (sig := no_signal) 6 150 st = (Returned tt, st, t)
        /\ relay_pulses t = [150; 150; 150; 150; 150; 150]).
Proof.
  intros net ctrl_c st.
  destruct C5_relay_rests_low as (Hvalidate & Hunlock & Hflash).
  split; [|split; [|split]].
  - destruct (Hvalidate no_signal net "Z9" st eq_refl)
      as (res & st' & t & Hrun & _ & _ & Hlow & _).
    exists res, st', t. split; [assumption|]. apply Hlow. reflexivity.
  - destruct (proj1 (Hunlock no_signal st) eq_refl) as (t & Hrun & _ & Hpulses).
    exists t. split; [exact Hrun | exact Hpulses].
  - destruct (proj2 (Hunlock ctrl_c st) eq_refl) as (t & Hrun & Hlevel).
    exists t. split; [exact Hrun | exact Hlevel].
  - destruct (Hflash no_signal 6%nat 150 st eq_refl) as (t & Hrun & _ & Hpulses).
    + lia.
    + reflexivity.
    + exists t. split; assumption.
Defined.

(** ** The entry loop and the end of the process *)

Lemma lstrip_blank s : blank s = true -> lstrip s = EmptyString.
Proof.
  induction s as [|c s IH]; cbn; [reflexivity|].
  intros H. apply andb_true_iff in H. destruct H as [Hc Hs].
  rewrite Hc. apply IH. assumption.
Qed.

Lemma strip_blank s : blank s = true -> strip s = EmptyString.
Proof. intros H. unfold strip. rewrite lstrip_blank by assumption. reflexivity. Qed.

(** C9: a line that is empty or all whitespace is skipped: the loop goes on
    to the next read at once, in the same state and with nothing printed,
    requested, actuated or logged for that line. *)
Theorem C9_blank_line_is_skipped :
  forall net text rest st,
    blank text = true ->
    scan_loop net (Line text :: rest) st = scan_loop net rest st
    /\ scan_loop net [Line text] st = (Raised EOFError, st, []).
Proof.
  intros net text rest st Hblank.
  cbn [scan_loop]. rewrite (strip_blank text Hblank). cbn. split; reflexivity.
Qed.

Lemma C9_blank_line_is_skipped_witness :
  let net := {| session_post := fun _ _ _ => Failed (RequestException "Timeout");
                json_error_is_request_exception := true |} in
  let st := {| relay := LOW; requests := 0 |} in
  let tab := String (ascii_of_nat 9) EmptyString in
  scan_loop net [Line ("  " ++ tab ++ " ")%string; ReadRaises KeyboardInterrupt] st
    = (Raised KeyboardInterrupt, st, []).
Proof.
  intros net st tab.
  rewrite (proj1 (C9_blank_line_is_skipped net ("  " ++ tab ++ " ")%string
                    [ReadRaises KeyboardInterrupt] st eq_refl)).
  reflexivity.
Defined.

(** The loop is left only by an exception. *)
Lemma scan_loop_raises net stdin : forall (sched : schedule) st,
  exists e st' t, scan_loop (sched := sched) net stdin st = (Raised e, st', t).
Proof.
  induction stdin as [|read rest IH]; intros sched st.
  - exists EOFError, st, []. reflexivity.
  - destruct read as [text | e]; [|exists e, st, []; reflexivity].
    cbn [scan_loop]. destruct (strip text =? "")%string; [apply IH|].
    unfold bind, print, emit.
    destruct (validate_rfid (sig := sched 0%nat) net (strip text) st)
      as [[[[]|e] st1] t1].
    + destruct (IH (fun i => sched (S i)) st1) as (e & st2 & t2 & Hrest).
      rewrite Hrest. eauto.
    + eauto.
Qed.

(** C8: however the loop ends (Ctrl+C, end of input, or any error that
    leaves it), [main] exits with status 0, and [GPIO.cleanup] runs after
    everything else the script did to the relay, the context manager's own
    message being all that follows it. *)
Theorem C8_exit_status_zero_after_cleanup :
  forall net stdin st,
    exists e st1 t1 st' t,
      scan_loop net stdin {| relay := LOW; requests := requests st |}
        = (Raised e, st1, t1)
      /\ script net stdin st = (Raised (SystemExit 0), st', t)
      /\ exit_status (fst (fst (script net stdin st))) = 0
      /\ t = [EvGpioSetwarnings false; EvGpioSetmodeBCM; EvGpioSetup RELAY_PIN LOW;
              EvPrint [Txt "[INFO] RFID Reader is active. Waiting for scans (Ctrl+C to exit)."]]
             ++ t1 ++ farewell e
             ++ [EvGpioCleanup;
                 EvPrint [Txt "[ERROR] Exiting due to exception: ";
                          ExnType (SystemExit 0); Txt " - "; Exn (SystemExit 0)]].
Proof.
  intros net stdin st.
  destruct (scan_loop_raises net stdin calm {| relay := LOW; requests := requests st |})
    as (e & st1 & t1 & Hloop).
  exists e, st1, t1.
  unfold script, with_GPIOHandler, main, try_finally, try_except, sys_exit,
    GPIOHandler_enter, GPIOHandler_exit, bind, print, emit, raise, farewell.
  cbn. rewrite Hloop.
  destruct e; cbn; rewrite <- ?app_assoc; cbn;
    do 2 eexists; (split; [reflexivity|]); (split; [reflexivity|]); split; reflexivity.
Qed.

(** * Beyond the claims *)

(** ** Stepping through a computation *)

Lemma py_ne_str_false v s : py_ne_str v s = false -> v = PyStr s.
Proof.
  destruct v; cbn; try discriminate.
  intros H. apply negb_false_iff, String.eqb_eq in H. congruence.
Qed.

Section Runs.
Context {A B : Type}.

Lemma runs_bind (m : M A) (f : A -> M B) st
    (Q : outcome B -> state -> list event -> Prop) :
  runs m st (fun (r : outcome A) st1 t1 =>
               match r with
               | Returned a => runs (f a) st1 (fun r2 st2 t2 => Q r2 st2 (t1 ++ t2))
               | Raised e => Q (Raised e) st1 t1
               end) ->
  runs (bind m f) st Q.
Proof.
  unfold runs, bind. destruct (m st) as [[[a|e] st1] t1]; [|auto].
  destruct (f a st1) as [[r2 st2] t2]. auto.
Qed.

Lemma runs_try_except (m : M A) (handles : exc -> bool) (h : exc -> M A) st
    (Q : outcome A -> state -> list event -> Prop) :
  runs m st (fun (r : outcome A) st1 t1 =>
               match r with
               | Returned a => Q (Returned a) st1 t1
               | Raised e =>
                   if handles e
                   then runs (h e) st1 (fun r2 st2 t2 => Q r2 st2 (t1 ++ t2))
                   else Q (Raised e) st1 t1
               end) ->
  runs (try_except m handles h) st Q.
Proof.
  unfold runs, try_except. destruct (m st) as [[[a|e] st1] t1]; [auto|].
  destruct (handles e); [|auto].
  destruct (h e st1) as [[r2 st2] t2]. auto.
Qed.

End Runs.

Lemma runs_py_get v key default st Q :
  (forall fields, v = PyDict fields ->
     Q (Returned (dict_get_default fields key default)) st []) ->
  ((forall fields, v <> PyDict fields) -> Q (Raised AttributeError) st []) ->
  runs (py_get v key default) st Q.
Proof.
  intros Hdict Hother. unfold runs.
  destruct v; cbn; try (apply Hother; intros ? ?; discriminate).
  apply Hdict. reflexivity.
Qed.

Lemma ends_interrupted_last ms :
  exists t0 ms', [EvSleepInterrupted ms] = t0 ++ [EvSleepInterrupted ms'].
Proof. exists [], ms. reflexivity. Qed.

Lemma ends_interrupted_cons ev t :
  (exists t0 ms, t = t0 ++ [EvSleepInterrupted ms]) ->
  exists t0 ms, ev :: t = t0 ++ [EvSleepInterrupted ms].
Proof. intros (t0 & ms & ->). exists (ev :: t0), ms. reflexivity. Qed.

Ltac ends_interrupted :=
  repeat first [ assumption
               | apply ends_interrupted_last
               | apply ends_interrupted_cons ].

(** A denial either runs to its end, as it does when no signal arrives, or
    is cut short by a signal during one of the twelve sleeps of its flash. *)
Lemma runs_deny_access (sig : signals) uid reason st
    (Q : outcome unit -> state -> list event -> Prop) :
  Q (Returned tt) {| relay := LOW; requests := requests st |}
    (snd (deny_access (sig := no_signal) uid reason st)) ->
  (forall lvl t,
     (exists k, sig k = true) ->
     denial_reasons t = [reason] ->
     requests_sent t = [] ->
     request_timeouts t = [] ->
     log_records t = [] ->
     door_engaged t = false ->
     (exists t0 ms, t = t0 ++ [EvSleepInterrupted ms]) ->
     Q (Raised KeyboardInterrupt) {| relay := lvl; requests := requests st |} t) ->
  runs (deny_access (sig := sig) uid reason) st Q.
Proof.
  intros Hquiet Hcut.
  unfold runs, deny_access, flash_relay, FLASH_COUNT, FLASH_INTERVAL.
  cbn [flash_loop]. unfold later.
  unfold bind, print, emit, GPIO_output, time_sleep, raise, ret, log_access_attempt.
  cbn.
  repeat match goal with
         | |- context [if sig ?k then _ else _] => destruct (sig k) eqn:?; cbn
         end.
  all: first
         [ exact Hquiet
         | apply Hcut;
           [ eexists; eassumption | reflexivity | reflexivity | reflexivity
           | reflexivity | reflexivity | ends_interrupted ] ].
Qed.

(** [unlock_door] either runs to its end or is cut short by a signal during
    its sleep, the relay being HIGH. *)
Lemma runs_unlock_door (sig : signals) st
    (Q : outcome unit -> state -> list event -> Prop) :
  Q (Returned tt) {| relay := LOW; requests := requests st |}
    (snd (unlock_door (sig := no_signal) st)) ->
  ((exists k, sig k = true) ->
   Q (Raised KeyboardInterrupt) {| relay := HIGH; requests := requests st |}
     [EvPrint [Txt "[INFO] Unlocking door..."];
      EvGpioOutput RELAY_PIN HIGH;
      EvSleepInterrupted (1000 * UNLOCK_DURATION_SECONDS)]) ->
  runs (unlock_door (sig := sig)) st Q.
Proof.
  intros Hquiet Hcut. unfold runs.
  destruct (unlock_door_run sig st) as [Hrun Hrun'].
  destruct (sig 0%nat) eqn:H0.
  - rewrite (Hrun' eq_refl). apply Hcut. exists 0%nat. assumption.
  - rewrite (Hrun eq_refl). exact Hquiet.
Qed.

Ltac run_leaf :=
  unfold runs at 1; cbn [print emit ret raise time_sleep log_access_attempt];
  cbv beta iota zeta.

Ltac decide_test b :=
  let b' := eval cbn in b in
  lazymatch b' with
  | true => change b with true; cbv beta iota
  | false => change b with false; cbv beta iota
  | _ => destruct b eqn:?
  end.

Ltac step :=
  lazymatch goal with
  | |- runs (bind _ _) _ _ => apply runs_bind
  | |- runs (try_except _ _ _) _ _ => apply runs_try_except
  | |- runs (if ?b then _ else _) _ _ => decide_test b
  | |- runs (py_get ?v _ _) _ _ =>
      first
        [ match goal with H : v = PyDict _ |- _ => rewrite H end
        | match v with PyDict _ => idtac end;
          unfold runs at 1; cbn [py_get ret]; cbv beta iota zeta
        | apply runs_py_get;
          [ let f := fresh "fields" in
            let H := fresh "Hdict" in
            intros f H; try subst
          | intros ? ];
          cbv beta iota zeta ]
  | |- runs (post ?net ?url ?p) ?st _ =>
      unfold runs at 1, post; cbn [requests relay];
      destruct (session_post net _ url p) eqn:?; cbv beta iota zeta
  | |- runs (response_json ?r) _ _ =>
      unfold runs at 1, response_json; destruct (json_body r) eqn:?;
      cbn [ret raise]; cbv beta iota zeta
  | |- runs (print _) _ _ => run_leaf
  | |- runs (ret _) _ _ => run_leaf
  | |- runs (raise _) _ _ => run_leaf
  | |- runs (log_access_attempt _ _ _) _ _ => run_leaf
  | |- runs (@deny_access _ _ _) _ _ =>
      apply runs_deny_access; [|intros ? ? ? ? ? ? ? ? ?]; cbv beta iota zeta
  | |- runs (@unlock_door _) _ _ =>
      apply runs_unlock_door; [|intros ?]; cbv beta iota zeta
  | |- runs (@validate_rfid _ _ _) _ _ => unfold validate_rfid
  | |- runs (@grant_or_activate _ _ _ _) _ _ => unfold grant_or_activate
  | |- runs (activate_rfid_if_assigned _ _ _) _ _ => unfold activate_rfid_if_assigned
  | |- runs (print_guest_info _) _ _ => unfold print_guest_info
  | |- runs (print_room_info _) _ _ => unfold print_room_info
  | |- runs (match ?x with Some _ => _ | None => _ end) _ _ => destruct x eqn:?
  | |- (if ?b then _ else _) => decide_test b
  end.

Ltac tidy :=
  repeat match goal with
         | H : negb _ = false |- _ => apply negb_false_iff in H
         | H : negb _ = true |- _ => apply negb_true_iff in H
         | H : py_ne_str _ _ = false |- _ => apply py_ne_str_false in H
         end.

(** Uses what is known of a log that a signal cut short. *)
Ltac use_cut :=
  repeat match goal with
         | H : requests_sent ?t = [] |- context [requests_sent ?t] => rewrite H
         | H : request_timeouts ?t = [] |- context [request_timeouts ?t] => rewrite H
         | H : log_records ?t = [] |- context [log_records ?t] => rewrite H
         end.

Ltac solve_requests :=
  first
    [ left; reflexivity
    | right; split; [reflexivity|];
      do 2 eexists; split; [reflexivity|];
      split; [eassumption|]; split; [eassumption|]; split; [eassumption|];
      unfold reported_status;
      repeat match goal with
             | H : dict_get_default _ _ _ = _ |- _ => rewrite H
             end;
      reflexivity ].

Ltac solve_verdict :=
  first
    [ left; split; [reflexivity|]; split;
      [ unfold silent, relay_pulses; cbn; repeat split
      | eexists; split; [reflexivity | eassumption] ]
    | right; left; split; [reflexivity|]; split; [reflexivity|];
      eexists; unfold Denied, relay_pulses; cbn; repeat split; reflexivity
    | right; right; left; split; [reflexivity|]; split; [reflexivity|];
      split;
      [ eexists; unfold Granted, relay_pulses; cbn; repeat split; reflexivity |];
      split;
      [ do 2 eexists; split; [reflexivity|];
        split; [eassumption|]; split; eassumption |];
      let Htwo := fresh "Htwo" in
      intros Htwo;
      first
        [ discriminate Htwo
        | do 2 eexists; split; [reflexivity|];
          split; [eassumption|]; split; eassumption ]
    | right; right; right; left; eexists; split; [reflexivity|];
      unfold silent, relay_pulses; cbn; solve [repeat split]
    | right; right; right; right; split; [reflexivity|];
      split; [assumption|]; split; [reflexivity|];
      split;
      [ first [ reflexivity
              | match goal with H : door_engaged _ = false |- _ => exact H end ] |];
      ends_interrupted ].

Lemma validate_rfid_paths (sig : signals) net rfid_uid st :
  runs (validate_rfid (sig := sig) net rfid_uid) st (fun res st' t =>
    request_timeouts t = repeat REQUEST_TIMEOUT (length (requests_sent t))
    /\ (requests_sent t = [(VERIFY_RFID_URL, uid_payload rfid_uid)]
        \/ (requests_sent t = [(VERIFY_RFID_URL, uid_payload rfid_uid);
                               (ACTIVATE_RFID_URL, uid_payload rfid_uid)]
            /\ exists resp fields,
                 session_post net (requests st) VERIFY_RFID_URL (uid_payload rfid_uid)
                   = Responded resp
                 /\ (status_code resp =? 200) = true
                 /\ json_body resp = Some (PyDict fields)
                 /\ truthy (dict_get_default fields "success" PyNone) = true
                 /\ reported_status fields = Some (PyStr "assigned")))
    /\ ((res = Returned tt /\ silent t
         /\ exists e,
              session_post net (requests st) VERIFY_RFID_URL (uid_payload rfid_uid)
                = Failed e
              /\ is_RequestException net e = true)
        \/ (res = Returned tt /\ sleep_total t = 1800
            /\ exists reason, Denied rfid_uid reason t)
        \/ (res = Returned tt /\ sleep_total t = 5000
            /\ (exists guest_id, Granted rfid_uid guest_id t)
            /\ (exists resp fields,
                  session_post net (requests st) VERIFY_RFID_URL (uid_payload rfid_uid)
                    = Responded resp
                  /\ (status_code resp =? 200) = true
                  /\ json_body resp = Some (PyDict fields)
                  /\ truthy (dict_get_default fields "success" PyNone) = true)
            /\ (requests_sent t = [(VERIFY_RFID_URL, uid_payload rfid_uid);
                                   (ACTIVATE_RFID_URL, uid_payload rfid_uid)] ->
                exists answered answer,
                  session_post net (S (requests st)) ACTIVATE_RFID_URL
                    (uid_payload rfid_uid) = Responded answered
                  /\ (status_code answered =? 200) = true
                  /\ json_body answered = Some (PyDict answer)
                  /\ truthy (dict_get_default answer "success" PyNone) = true))
        \/ (exists e, res = Raised e /\ silent t)
        \/ (res = Raised KeyboardInterrupt
            /\ (exists k, sig k = true)
            /\ log_records t = []
            /\ door_engaged t = false
            /\ exists t0 ms, t = t0 ++ [EvSleepInterrupted ms]))).
Proof.
  match goal with |- runs _ _ ?Q => set (P := Q) end.
  repeat step.
  all: tidy; subst P; cbv beta; cbn; use_cut.
  all: split; [reflexivity|]; split; [solve_requests|].
  all: solve_verdict.
Qed.

(** ** Verdicts and requests of a validation *)

(** X1: whatever the backend does and whenever signals arrive, a validation
    ends in one of five ways: it returns having done nothing (the verify
    request raised a request exception); it returns after a denial (flash,
    1.8 s slept, one denied record); it returns after a grant (one unlock
    pulse, 5 s slept, one granted record); an exception leaves it before the
    relay was touched or anything was recorded; or a signal cuts one of its
    sleeps short, and [KeyboardInterrupt] leaves it with no access record
    handed over and the door never held for the unlock duration.  With no
    signal, the last does not happen. *)
Theorem X1_validate_rfid_verdicts :
  forall (sig : signals) net rfid_uid st,
    exists res st' t,
      validate_rfid (sig := sig) net rfid_uid st = (res, st', t)
      /\ ((res = Returned tt /\ silent t
           /\ exists e,
                session_post net (requests st) VERIFY_RFID_URL (uid_payload rfid_uid)
                  = Failed e
                /\ is_RequestException net e = true)
          \/ (res = Returned tt /\ sleep_total t = 1800
              /\ exists reason, Denied rfid_uid reason t)
          \/ (res = Returned tt /\ sleep_total t = 5000
              /\ exists guest_id, Granted rfid_uid guest_id t)
          \/ (exists e, res = Raised e /\ silent t)
          \/ (res = Raised KeyboardInterrupt
              /\ (exists k, sig k = true)
              /\ log_records t = []
              /\ door_engaged t = false
              /\ exists t0 ms, t = t0 ++ [EvSleepInterrupted ms])).
Proof.
  intros sig net rfid_uid st.
  pose proof (validate_rfid_paths sig net rfid_uid st) as H. unfold runs in H.
  destruct (validate_rfid net rfid_uid st) as [[res st'] t].
  exists res, st', t. split; [reflexivity|].
  destruct H as (_ & _ & [H | [H | [H | [H | H]]]]).
  - left. exact H.
  - right. left. exact H.
  - right. right. left. destruct H as (Hres & Hsleep & Hgranted & _).
    repeat split; assumption.
  - right. right. right. left. exact H.
  - right. right. right. right. exact H.
Qed.

(** X2: the door is engaged only when the verify response had status 200
    and a parsed object with [success] set; and, when an activation request
    was made, only when its response too had status 200 and [success] set.
    The attempt then is a grant. *)
Theorem X2_door_opens_only_when_verified :
  forall net rfid_uid st res st' t,
    validate_rfid net rfid_uid st = (res, st', t) ->
    door_engaged t = true ->
    (exists resp fields,
       session_post net (requests st) VERIFY_RFID_URL (uid_payload rfid_uid)
         = Responded resp
       /\ status_code resp = 200
       /\ json_body resp = Some (PyDict fields)
       /\ truthy (dict_get_default fields "success" PyNone) = true)
    /\ (requests_sent t = [(VERIFY_RFID_URL, uid_payload rfid_uid);
                           (ACTIVATE_RFID_URL, uid_payload rfid_uid)] ->
        exists answered answer,
          session_post net (S (requests st)) ACTIVATE_RFID_URL (uid_payload rfid_uid)
            = Responded answered
          /\ status_code answered = 200
          /\ json_body answered = Some (PyDict answer)
          /\ truthy (dict_get_default answer "success" PyNone) = true)
    /\ res = Returned tt
    /\ exists guest_id, Granted rfid_uid guest_id t.
Proof.
  intros net rfid_uid st res st' t Hrun Hdoor.
  pose proof (validate_rfid_paths no_signal net rfid_uid st) as H. unfold runs in H.
  rewrite Hrun in H.
  destruct H as (_ & _ & [H | [H | [H | [H | H]]]]).
  - destruct H as (_ & (Hpulses & _) & _).
    unfold door_engaged in Hdoor. rewrite Hpulses in Hdoor. discriminate.
  - destruct H as (_ & _ & reason & Hpulses & _).
    unfold door_engaged in Hdoor. rewrite Hpulses in Hdoor. discriminate.
  - destruct H as (Hres & _ & Hgranted & Hverify & Hactivate).
    destruct Hverify as (resp & fields & Hv & Hcode & Hbody & Hflag).
    apply Z.eqb_eq in Hcode.
    split; [eauto 8|]. split; [|split; assumption].
    intros Htwo. destruct (Hactivate Htwo) as (answered & answer & Ha & Hc & Hb & Hf).
    apply Z.eqb_eq in Hc. eauto 8.
  - destruct H as (e & _ & (Hpulses & _)).
    unfold door_engaged in Hdoor. rewrite Hpulses in Hdoor. discriminate.
  - destruct H as (_ & _ & _ & Hshut & _). congruence.
Qed.

(** X4: [activate_rfid_if_assigned] never touches the relay and records
    nothing.  For any status other than the string "assigned" it returns the
    status as it is, with no request and no print.  For "assigned" it sends
    exactly one activation request; it returns [None] when that fails, and
    [data.get("data", {}).get("status", "unknown")] when the response has
    status 200 and [success] set. *)
Theorem X4_activate_rfid_if_assigned_contract :
  forall net rfid_uid rfid_status st,
    exists res st' t,
      activate_rfid_if_assigned net rfid_uid rfid_status st = (res, st', t)
      /\ relay st' = relay st
      /\ silent t
      /\ (py_ne_str rfid_status "assigned" = true ->
          res = Returned rfid_status /\ st' = st /\ t = [])
      /\ (rfid_status = PyStr "assigned" ->
          requests_sent t = [(ACTIVATE_RFID_URL, uid_payload rfid_uid)]
          /\ requests st' = S (requests st)
          /\ (activation_failed
                (session_post net (requests st) ACTIVATE_RFID_URL (uid_payload rfid_uid))
              = true ->
              (unparseable
                 (session_post net (requests st) ACTIVATE_RFID_URL (uid_payload rfid_uid))
               = true -> json_error_is_request_exception net = true) ->
              res = Returned PyNone)
          /\ (forall r answer updated,
                session_post net (requests st) ACTIVATE_RFID_URL (uid_payload rfid_uid)
                  = Responded r ->
                status_code r = 200 ->
                json_body r = Some (PyDict answer) ->
                truthy (dict_get_default answer "success" PyNone) = true ->
                dict_get_default answer "data" (PyDict []) = PyDict updated ->
                res = Returned (dict_get_default updated "status" (PyStr "unknown")))).
Proof.
  intros net rfid_uid rfid_status st.
  enough (H : runs (activate_rfid_if_assigned net rfid_uid rfid_status) st
                (fun res st' t =>
                   relay st' = relay st
      /\ silent t
      /\ (py_ne_str rfid_status "assigned" = true ->
          res = Returned rfid_status /\ st' = st /\ t = [])
      /\ (rfid_status = PyStr "assigned" ->
          requests_sent t = [(ACTIVATE_RFID_URL, uid_payload rfid_uid)]
          /\ requests st' = S (requests st)
          /\ (activation_failed
                (session_post net (requests st) ACTIVATE_RFID_URL (uid_payload rfid_uid))
              = true ->
              (unparseable
                 (session_post net (requests st) ACTIVATE_RFID_URL (uid_payload rfid_uid))
               = true -> json_error_is_request_exception net = true) ->
              res = Returned PyNone)
          /\ (forall r answer updated,
                session_post net (requests st) ACTIVATE_RFID_URL (uid_payload rfid_uid)
                  = Responded r ->
                status_code r = 200 ->
                json_body r = Some (PyDict answer) ->
                truthy (dict_get_default answer "success" PyNone) = true ->
                dict_get_default answer "data" (PyDict []) = PyDict updated ->
                res = Returned (dict_get_default updated "status" (PyStr "unknown")))))).
  { unfold runs in H.
    destruct (activate_rfid_if_assigned net rfid_uid rfid_status st) as [[res st'] t].
    exists res, st', t. split; [reflexivity | exact H]. }
  match goal with |- runs _ _ ?Q => set (P := Q) end.
  repeat step.
  all: tidy; subst P; cbv beta; cbn.
  all: unfold silent, relay_pulses; cbn; repeat split; intros.
  all: try reflexivity; try discriminate.
  all: unfold activation_failed, unparseable in *.
  all: repeat match goal with
              | H : (_ =? _) = true |- _ => apply Z.eqb_eq in H
              | H : (_ =? _) = false |- _ => apply Z.eqb_neq in H
              | H : Responded _ = Responded _ |- _ => injection H as H; subst
              | H : ?x = _, H' : context [?x] |- _ => rewrite H in H'
              end.
  all: cbn in *; try discriminate; try congruence.
  all: try match goal with
           | H : forall fields, ?p <> PyDict fields |- _ =>
               destruct p; try discriminate; exfalso; eapply H; reflexivity
           | H : true = true -> _ |- _ => specialize (H eq_refl); congruence
           | e : exc |- _ => destruct e; cbn in *; discriminate
           end.
Qed.

(** ** The flashing loop *)

Lemma sleep_total_app t1 t2 : sleep_total (t1 ++ t2) = sleep_total t1 + sleep_total t2.
Proof.
  induction t1 as [|ev t1 IH]; [reflexivity|].
  destruct ev; cbn; rewrite ?IH; lia.
Qed.

Lemma relay_writes_app t1 t2 : relay_writes (t1 ++ t2) = relay_writes t1 ++ relay_writes t2.
Proof.
  induction t1 as [|ev t1 IH]; [reflexivity|].
  destruct ev; cbn; rewrite ?IH; try reflexivity.
  destruct (pin =? RELAY_PIN); reflexivity.
Qed.

Lemma requests_sent_app t1 t2 :
  requests_sent (t1 ++ t2) = requests_sent t1 ++ requests_sent t2.
Proof.
  induction t1 as [|ev t1 IH]; [reflexivity|].
  destruct ev; cbn; rewrite ?IH; reflexivity.
Qed.

Lemma log_records_app t1 t2 :
  log_records (t1 ++ t2) = log_records t1 ++ log_records t2.
Proof.
  induction t1 as [|ev t1 IH]; [reflexivity|].
  destruct ev; cbn; rewrite ?IH; reflexivity.
Qed.

Lemma flash_loop_log count interval :
  0 <= interval ->
  forall (sig : signals) st,
    (forall k, (k < 2 * count)%nat -> sig k = false) ->
    exists t,
      flash_loop (sig := sig) count interval st
        = (Returned tt,
           {| relay := match count with O => relay st | S _ => LOW end;
              requests := requests st |}, t)
      /\ sleep_total t = 2 * Z.of_nat count * interval
      /\ relay_writes t = concat (repeat [HIGH; LOW] count)
      /\ requests_sent t = []
      /\ log_records t = [].
Proof.
  intros Hint. induction count as [|n IH]; intros sig st Hsig.
  - exists []. destruct st. repeat split.
  - destruct (IH (later 2 sig) {| relay := LOW; requests := requests st |})
      as (t & Hrun & Hsleep & Hwrites & Hreq & Hlog).
    { intros k Hk. apply Hsig. lia. }
    exists ([EvGpioOutput RELAY_PIN HIGH; EvSleep interval;
             EvGpioOutput RELAY_PIN LOW; EvSleep interval] ++ t).
    split; [|split; [|split; [|split]]].
    + cbn [flash_loop]. unfold bind, GPIO_output, time_sleep, emit.
      replace (interval <? 0) with false by (symmetry; apply Z.ltb_ge; lia).
      rewrite (Hsig 0%nat), (Hsig 1%nat) by lia. cbn.
      rewrite Hrun. destruct n; reflexivity.
    + rewrite sleep_total_app, Hsleep. cbn [sleep_total]. lia.
    + rewrite relay_writes_app, Hwrites. reflexivity.
    + rewrite requests_sent_app, Hreq. reflexivity.
    + rewrite log_records_app, Hlog. reflexivity.
Qed.

(** X5: with an interval that is not negative and no signal during its
    sleeps, [flash_relay] writes HIGH then LOW [flash_count] times, sleeps
    [2 * flash_count * interval] in all, sends and records nothing, and
    leaves the relay LOW; with a count of zero it only prints and leaves the
    relay as it was.  With a negative interval and a count that is not zero,
    the first sleep raises [ValueError] after the first write: the flash
    ends there, with the relay HIGH.  A signal during the first sleep ends
    it with [KeyboardInterrupt], the relay HIGH as well. *)
Theorem X5_flash_relay_log :
  (forall (sig : signals) flash_count interval st,
     0 <= interval ->
     (forall k, (k < 2 * flash_count)%nat -> sig k = false) ->
     exists t,
       flash_relay (sig := sig) flash_count interval st
         = (Returned tt,
            {| relay := match flash_count with O => relay st | S _ => LOW end;
               requests := requests st |}, t)
       /\ sleep_total t = 2 * Z.of_nat flash_count * interval
       /\ relay_writes t = concat (repeat [HIGH; LOW] flash_count)
       /\ requests_sent t = []
       /\ log_records t = [])
  /\ (forall (sig : signals) flash_count interval st,
        interval < 0 ->
        flash_relay (sig := sig) (S flash_count) interval st
        = (Raised ValueError, {| relay := HIGH; requests := requests st |},
           [EvPrint [Txt "[WARN] Flashing relay for access denial."];
            EvGpioOutput RELAY_PIN HIGH]))
  /\ (forall (sig : signals) flash_count interval st,
        0 <= interval ->
        sig 0%nat = true ->
        flash_relay (sig := sig) (S flash_count) interval st
        = (Raised KeyboardInterrupt, {| relay := HIGH; requests := requests st |},
           [EvPrint [Txt "[WARN] Flashing relay for access denial."];
            EvGpioOutput RELAY_PIN HIGH;
            EvSleepInterrupted interval])).
Proof.
  split; [|split].
  - intros sig flash_count interval st Hint Hsig.
    destruct (flash_loop_log flash_count interval Hint sig st Hsig)
      as (t & Hrun & Hsleep & Hwrites & Hreq & Hlog).
    exists ([EvPrint [Txt "[WARN] Flashing relay for access denial."]] ++ t
            ++ [EvPrint [Txt "[WARN] Access denial flash complete."]]).
    split; [|split; [|split; [|split]]].
    + unfold flash_relay, bind, print, emit. rewrite Hrun. reflexivity.
    + rewrite !sleep_total_app, Hsleep. cbn. lia.
    + rewrite !relay_writes_app, Hwrites. cbn. apply app_nil_r.
    + rewrite !requests_sent_app, Hreq. reflexivity.
    + rewrite !log_records_app, Hlog. reflexivity.
  - intros sig flash_count interval st Hneg.
    unfold flash_relay. cbn [flash_loop].
    unfold bind, print, emit, GPIO_output, time_sleep, raise.
    replace (interval <? 0) with true by (symmetry; apply Z.ltb_lt; lia).
    reflexivity.
  - intros sig flash_count interval st Hint Hsig.
    unfold flash_relay. cbn [flash_loop].
    unfold bind, print, emit, GPIO_output, time_sleep, raise.
    replace (interval <? 0) with false by (symmetry; apply Z.ltb_ge; lia).
    rewrite Hsig. reflexivity.
Qed.

(** X3: a validation sends the verify request, with the identifier as
    payload, and at most one more request, the activation with the same
    payload; the activation is sent only after a verify response with status
    200, [success] set and the status "assigned"; every request has the
    fixed timeout. *)
Theorem X3_validate_rfid_requests :
  forall net rfid_uid st,
    exists res st' t,
      validate_rfid net rfid_uid st = (res, st', t)
      /\ request_timeouts t = repeat REQUEST_TIMEOUT (length (requests_sent t))
      /\ (requests_sent t = [(VERIFY_RFID_URL, uid_payload rfid_uid)]
          \/ (requests_sent t = [(VERIFY_RFID_URL, uid_payload rfid_uid);
                                 (ACTIVATE_RFID_URL, uid_payload rfid_uid)]
              /\ exists resp fields,
                   session_post net (requests st) VERIFY_RFID_URL (uid_payload rfid_uid)
                     = Responded resp
                   /\ (status_code resp =? 200) = true
                   /\ json_body resp = Some (PyDict fields)
                   /\ truthy (dict_get_default fields "success" PyNone) = true
                   /\ reported_status fields = Some (PyStr "assigned"))).
Proof.
  intros net rfid_uid st.
  pose proof (validate_rfid_paths no_signal net rfid_uid st) as H. unfold runs in H.
  destruct (validate_rfid net rfid_uid st) as [[res st'] t].
  exists res, st', t. split; [reflexivity|]. split; apply H.
Qed.

(** *** Every event of a run *)

Section Emits.
Context (ok : event -> Prop) {A B : Type}.

Lemma emits_ret (a : A) : emits ok (ret a).
Proof. intros st. constructor. Qed.

Lemma emits_raise e : emits ok (@raise A e).
Proof. intros st. constructor. Qed.

Lemma emits_bind (m : M A) (f : A -> M B) :
  emits ok m -> (forall a, emits ok (f a)) -> emits ok (bind m f).
Proof.
  intros Hm Hf st. unfold bind. specialize (Hm st).
  destruct (m st) as [[[a|e] st1] t1]; cbn in *; [|assumption].
  specialize (Hf a st1). destruct (f a st1) as [[r st2] t2]. cbn in *.
  apply Forall_app. split; assumption.
Qed.

Lemma emits_try_except (m : M A) handles h :
  emits ok m -> (forall e, emits ok (h e)) -> emits ok (try_except m handles h).
Proof.
  intros Hm Hh st. unfold try_except. specialize (Hm st).
  destruct (m st) as [[[a|e] st1] t1]; cbn in *; [assumption|].
  destruct (handles e); [|assumption].
  specialize (Hh e st1). destruct (h e st1) as [[r st2] t2]. cbn in *.
  apply Forall_app. split; assumption.
Qed.

Lemma emits_try_finally (m : M A) f :
  emits ok m -> emits ok f -> emits ok (try_finally m f).
Proof.
  intros Hm Hf st. unfold try_finally. specialize (Hm st).
  destruct (m st) as [[r st1] t1]. cbn in *.
  specialize (Hf st1). destruct (f st1) as [[[[]|e] st2] t2]; cbn in *;
    apply Forall_app; split; assumption.
Qed.

End Emits.

Lemma emits_emit ok ev : ok ev -> emits ok (emit ev).
Proof. intros H st. cbn. constructor; [assumption | constructor]. Qed.

Lemma emits_print ok line : ok (EvPrint line) -> emits ok (print line).
Proof. apply emits_emit. Qed.

Lemma emits_post ok net url payload :
  ok (EvPost url payload REQUEST_TIMEOUT) -> emits ok (post net url payload).
Proof.
  intros H st. unfold post.
  destruct (session_post net (requests st) url payload); cbn;
    (constructor; [assumption | constructor]).
Qed.

Lemma emits_py_get ok v key default : emits ok (py_get v key default).
Proof. destruct v; cbn; first [apply emits_ret | apply emits_raise]. Qed.

Lemma emits_response_json ok r : emits ok (response_json r).
Proof.
  unfold response_json. destruct (json_body r); [apply emits_ret | apply emits_raise].
Qed.

Lemma emits_unlock_door scanned_uid : emits (reader_event scanned_uid) unlock_door.
Proof. intros st. cbn. repeat constructor. Qed.

Lemma emits_deny_access (scanned_uid : string -> Prop) uid reason :
  scanned_uid uid -> emits (reader_event scanned_uid) (deny_access uid reason).
Proof.
  intros Huid st. cbn. repeat constructor. exists uid. split; [assumption|].
  left. split; reflexivity.
Qed.

Lemma emits_log_granted (scanned_uid : string -> Prop) uid guest_id msg :
  scanned_uid uid ->
  emits (reader_event scanned_uid)
    (log_access_attempt LOG_GRANTED_URL (granted_payload uid guest_id) msg).
Proof.
  intros Huid. apply emits_emit. cbn. split; [reflexivity|].
  exists uid. split; [assumption|]. right. split; [reflexivity|].
  exists guest_id. reflexivity.
Qed.

Lemma reader_event_post (scanned_uid : string -> Prop) url uid :
  scanned_uid uid ->
  url = VERIFY_RFID_URL \/ url = ACTIVATE_RFID_URL ->
  reader_event scanned_uid (EvPost url (uid_payload uid) REQUEST_TIMEOUT).
Proof.
  intros Huid Hurl. cbn. split; [assumption|]. split; [reflexivity|].
  exists uid. split; [assumption | reflexivity].
Qed.

Create HintDb emits discriminated.
#[local] Hint Resolve emits_ret emits_raise emits_bind emits_try_except
  emits_try_finally emits_py_get emits_response_json emits_unlock_door
  emits_deny_access emits_log_granted : emits.
#[local] Hint Extern 1 (emits _ (print _)) => apply emits_print; exact I : emits.
#[local] Hint Extern 1 (emits _ (post _ _ _)) =>
  apply emits_post; apply reader_event_post; [assumption | auto] : emits.
#[local] Hint Extern 1 (emits _ (if ?b then _ else _)) => destruct b : emits.
#[local] Hint Extern 1 (emits _ (match ?x with Some _ => _ | None => _ end)) =>
  destruct x : emits.

Lemma emits_activate (scanned_uid : string -> Prop) net uid status :
  scanned_uid uid ->
  emits (reader_event scanned_uid) (activate_rfid_if_assigned net uid status).
Proof. intros Huid. unfold activate_rfid_if_assigned. auto 20 with emits. Qed.

Lemma emits_validate_rfid (scanned_uid : string -> Prop) net uid :
  scanned_uid uid ->
  emits (reader_event scanned_uid) (validate_rfid net uid).
Proof.
  intros Huid.
  unfold validate_rfid, grant_or_activate, print_guest_info, print_room_info.
  pose proof (emits_activate scanned_uid net uid).
  auto 30 with emits.
Qed.

(** *** Stripping *)

Lemma lstrip_head s :
  lstrip s = EmptyString
  \/ exists c rest, lstrip s = String c rest /\ isspace c = false.
Proof.
  induction s as [|c s IH]; cbn; [left; reflexivity|].
  destruct (isspace c) eqn:Hc; [exact IH|].
  right. exists c, s. split; [reflexivity | assumption].
Qed.

Lemma lstrip_fixed c rest : isspace c = false -> lstrip (String c rest) = String c rest.
Proof. intros H. cbn. rewrite H. reflexivity. Qed.

Lemma rstrip_head c rest :
  isspace c = false -> exists kept, rstrip (String c rest) = String c kept.
Proof.
  intros H. cbn. destruct (rstrip rest) as [|c' kept].
  - rewrite H. exists EmptyString. reflexivity.
  - exists (String c' kept). reflexivity.
Qed.

Lemma rstrip_cons c s :
  rstrip (String c s)
  = match rstrip s with
    | EmptyString => if isspace c then EmptyString else String c EmptyString
    | kept => String c kept
    end.
Proof. reflexivity. Qed.

Lemma rstrip_idempotent s : rstrip (rstrip s) = rstrip s.
Proof.
  induction s as [|c s IH]; [reflexivity|].
  rewrite rstrip_cons. destruct (rstrip s) as [|c' kept] eqn:Hs.
  - destruct (isspace c) eqn:Hc; [reflexivity|].
    rewrite rstrip_cons. cbn. rewrite Hc. reflexivity.
  - rewrite rstrip_cons, IH. reflexivity.
Qed.

Lemma strip_idempotent s : strip (strip s) = strip s.
Proof.
  unfold strip.
  destruct (lstrip_head s) as [-> | (c & rest & -> & Hc)]; [reflexivity|].
  destruct (rstrip_head c rest Hc) as (kept & Hkept).
  rewrite Hkept, (lstrip_fixed c kept Hc), <- Hkept.
  apply rstrip_idempotent.
Qed.

Lemma lstrip_not_blank s :
  blank s = false -> exists c rest, lstrip s = String c rest /\ isspace c = false.
Proof.
  induction s as [|c s IH]; cbn; [discriminate|].
  destruct (isspace c) eqn:Hc; cbn; [exact IH|].
  intros _. exists c, s. split; [reflexivity | assumption].
Qed.

Lemma strip_not_blank s : blank s = false -> strip s <> EmptyString.
Proof.
  intros H. unfold strip.
  destruct (lstrip_not_blank s H) as (c & rest & -> & Hc).
  destruct (rstrip_head c rest Hc) as (kept & ->). discriminate.
Qed.

Lemma strip_is_stripped s : strip s <> EmptyString -> stripped_uid (strip s).
Proof. intros H. split; [exact H | apply strip_idempotent]. Qed.

(** *** The loop and the script *)

Lemma rests_low_scan_loop net stdin : forall sched : schedule,
  rests_low_unless (exists i k, sched i k = true) (scan_loop (sched := sched) net stdin).
Proof.
  induction stdin as [|read rest IH]; intros sched; [apply rests_low_raise|].
  destruct read as [text | e]; [|apply rests_low_raise].
  cbn [scan_loop]. destruct (strip text =? "")%string; [apply IH|].
  apply rests_low_bind; [apply rests_low_print|]. intros _.
  apply rests_low_bind.
  - apply (rests_low_unless_weaken (exists k, sched 0%nat k = true));
      [|apply rests_low_validate_rfid].
    intros (k & Hk). exists 0%nat, k. exact Hk.
  - intros _.
    apply (rests_low_unless_weaken (exists i k, sched (S i) k = true));
      [|apply (IH (fun i => sched (S i)))].
    intros (i & k & Hk). exists (S i), k. exact Hk.
Qed.

Lemma emits_scan_loop net stdin :
  emits (reader_event stripped_uid) (scan_loop net stdin).
Proof.
  induction stdin as [|read rest IH]; [apply emits_raise|].
  destruct read as [text | e]; [|apply emits_raise].
  cbn [scan_loop]. destruct (strip text =? "")%string eqn:Hblank; [exact IH|].
  apply String.eqb_neq in Hblank.
  apply emits_bind; [apply emits_print; exact I|]. intros _.
  apply emits_bind; [|intros _; exact IH].
  apply (emits_validate_rfid stripped_uid net (strip text)), strip_is_stripped, Hblank.
Qed.

Lemma emits_main net stdin : emits (reader_event stripped_uid) (main net stdin).
Proof.
  unfold main. apply emits_bind; [apply emits_print; exact I|]. intros _.
  apply emits_try_finally; [|apply emits_raise].
  apply emits_try_except; [apply emits_scan_loop|].
  intros e. destruct (is_KeyboardInterrupt e); apply emits_print; exact I.
Qed.

(** [main], run: its greeting, the loop up to the exception [e] that ends
    it, the farewell for [e], and [sys.exit(0)]. *)
Lemma main_run (sched : schedule) net stdin st :
  exists e st' t_loop,
    scan_loop (sched := sched) net stdin st = (Raised e, st', t_loop)
    /\ main (sched := sched) net stdin st
       = (Raised (SystemExit 0), st',
          EvPrint [Txt "[INFO] RFID Reader is active. Waiting for scans (Ctrl+C to exit)."]
          :: t_loop ++ farewell e).
Proof.
  destruct (scan_loop_raises net stdin sched st) as (e & st' & t & Hloop).
  exists e, st', t. split; [exact Hloop|].
  unfold main, bind, print, emit, try_finally, try_except, sys_exit, raise, farewell.
  rewrite Hloop. destruct e; cbn; rewrite ?app_nil_r; reflexivity.
Qed.

Lemma script_run (sched : schedule) net stdin st :
  exists st' t_main,
    main (sched := sched) net stdin {| relay := LOW; requests := requests st |}
      = (Raised (SystemExit 0), st', t_main)
    /\ script (sched := sched) net stdin st
       = (Raised (SystemExit 0), st',
          GPIOHandler_enter_log ++ t_main ++ GPIOHandler_exit_log (SystemExit 0)).
Proof.
  destruct (main_run sched net stdin {| relay := LOW; requests := requests st |})
    as (e & st' & t & _ & Hmain).
  eexists st', _. split; [exact Hmain|].
  unfold script, with_GPIOHandler, GPIOHandler_enter, GPIOHandler_exit, bind,
    print, emit.
  cbn -[main]. rewrite Hmain. reflexivity.
Qed.

Lemma level_after_farewell lvl t e :
  level_after lvl (t ++ farewell e) = level_after lvl t.
Proof.
  rewrite level_after_app. unfold farewell.
  destruct (is_KeyboardInterrupt e); [reflexivity|].
  destruct (is_Exception e); reflexivity.
Qed.

Lemma relay_pulses_farewell t e :
  relay_pulses (t ++ farewell e) = relay_pulses t.
Proof.
  unfold relay_pulses. generalize LOW at 1 2, 0.
  induction t as [|ev t IH]; intros lvl acc.
  - unfold farewell. destruct (is_KeyboardInterrupt e); [reflexivity|].
    destruct (is_Exception e); reflexivity.
  - destruct ev; cbn; auto.
    destruct (pin =? RELAY_PIN); [|auto].
    destruct lvl, v; cbn; rewrite ?IH; auto.
Qed.

(** X6: for the whole run of the script, from any starting state, for any
    input and backend and whenever signals arrive: the script ends with
    [SystemExit(0)] after cleanup; after setup, no span with the relay HIGH
    is longer than the unlock duration; and the relay is LOW when cleanup
    runs, unless a signal cut a sleep short with the relay HIGH: then that
    sleep is the last thing the loop did, [main] printed its farewell for
    [KeyboardInterrupt], and cleanup follows.  With no signal the relay is
    LOW when cleanup runs. *)
Theorem X6_script_relay_rests_low :
  forall (sched : schedule) net stdin st,
    exists st' t_main,
      script (sched := sched) net stdin st
        = (Raised (SystemExit 0), st',
           GPIOHandler_enter_log ++ t_main ++ GPIOHandler_exit_log (SystemExit 0))
      /\ relay st' = level_after LOW t_main
      /\ Forall (fun d => d <= 1000 * UNLOCK_DURATION_SECONDS) (relay_pulses t_main)
      /\ ((forall i k, sched i k = false) -> relay st' = LOW)
      /\ (relay st' = HIGH ->
          (exists i k, sched i k = true)
          /\ exists t0 ms,
               t_main = t0 ++ [EvSleepInterrupted ms] ++ farewell KeyboardInterrupt).
Proof.
  intros sched net stdin st.
  set (st0 := {| relay := LOW; requests := requests st |}).
  destruct (main_run sched net stdin st0) as (e & st' & t & Hloop & Hmain).
  exists st'. eexists. split.
  - unfold script, with_GPIOHandler, GPIOHandler_enter, GPIOHandler_exit, bind,
      print, emit.
    cbn -[main]. fold st0. rewrite Hmain. reflexivity.
  - pose proof (rests_low_scan_loop net stdin sched st0 eq_refl) as H.
    rewrite Hloop in H. destruct H as (H1 & H2 & H3).
    change (EvPrint [Txt "[INFO] RFID Reader is active. Waiting for scans (Ctrl+C to exit)."]
            :: t ++ farewell e)
      with ([EvPrint [Txt "[INFO] RFID Reader is active. Waiting for scans (Ctrl+C to exit)."]]
            ++ (t ++ farewell e)).
    split; [|split; [|split]].
    + rewrite level_after_app. cbn [level_after]. rewrite level_after_farewell.
      exact H1.
    + unfold relay_pulses. rewrite high_spans_app by reflexivity. cbn [high_spans app].
      fold (relay_pulses (t ++ farewell e)). rewrite relay_pulses_farewell. exact H2.
    + intros Hcalm. destruct H3 as [H3 | ((i & k & Hk) & _)]; [assumption|].
      rewrite Hcalm in Hk. discriminate.
    + intros Hhigh. destruct H3 as [H3 | (H3 & H4 & t0 & ms & ->)]; [congruence|].
      split; [assumption|]. injection H4 as ->.
      exists (EvPrint [Txt "[INFO] RFID Reader is active. Waiting for scans (Ctrl+C to exit)."]
              :: t0), ms.
      cbn. rewrite <- app_assoc. reflexivity.
Qed.

(** X7: everything the script does between GPIO setup and cleanup is a
    print, a sleep, a write to the relay pin, a verify or activate request
    with the fixed timeout whose payload is a non-empty stripped identifier,
    or a daemon logging thread for one of the two access-log endpoints with
    such an identifier: no other pin, no other endpoint, no second setup or
    cleanup. *)
Theorem X7_script_events :
  forall net stdin st,
    exists st' t_main,
      script net stdin st
        = (Raised (SystemExit 0), st',
           GPIOHandler_enter_log ++ t_main ++ GPIOHandler_exit_log (SystemExit 0))
      /\ Forall (reader_event stripped_uid) t_main.
Proof.
  intros net stdin st.
  destruct (script_run calm net stdin st) as (st' & t & Hmain & Hscript).
  exists st', t. split; [exact Hscript|].
  pose proof (emits_main net stdin {| relay := LOW; requests := requests st |}) as H.
  rewrite Hmain in H. exact H.
Qed.

(** *** A scanned line *)

Lemma runs_any {A} (m : M A) st (Q : outcome A -> state -> list event -> Prop) :
  (forall r st' t, Q r st' t) -> runs m st Q.
Proof. intros H. unfold runs. destruct (m st) as [[r st'] t]. apply H. Qed.

Lemma validate_rfid_starts (sig : signals) net rfid_uid st :
  exists res st' t,
    validate_rfid (sig := sig) net rfid_uid st
    = (res, st',
       EvPrint [Txt "[INFO] Sending verification request for RFID=";
                Txt rfid_uid; Txt "..."]
       :: EvPost VERIFY_RFID_URL (uid_payload rfid_uid) REQUEST_TIMEOUT :: t).
Proof.
  enough (H : runs (validate_rfid (sig := sig) net rfid_uid) st
                (fun _ _ t =>
                   exists rest,
                     t = EvPrint [Txt "[INFO] Sending verification request for RFID=";
                                  Txt rfid_uid; Txt "..."]
                         :: EvPost VERIFY_RFID_URL (uid_payload rfid_uid) REQUEST_TIMEOUT
                         :: rest)).
  { unfold runs in H.
    destruct (validate_rfid (sig := sig) net rfid_uid st) as [[res st'] t].
    destruct H as (rest & ->). eauto. }
  unfold validate_rfid.
  apply runs_bind. run_leaf.
  apply runs_bind. apply runs_try_except. apply runs_bind.
  unfold runs at 1, post.
  destruct (session_post net (requests st) VERIFY_RFID_URL (uid_payload rfid_uid));
    cbv beta iota zeta.
  - run_leaf. apply runs_any. intros. cbn. eauto.
  - destruct (is_RequestException net e); [|cbn; eauto].
    apply runs_bind. run_leaf. run_leaf. apply runs_any. intros. cbn. eauto.
Qed.

(** X8: a line with a character that is not whitespace is never skipped:
    its stripped text is not empty, and the loop announces the scan and sends
    the verify request for it. *)
Theorem X8_nonblank_line_is_verified :
  forall net text rest st,
    blank text = false ->
    strip text <> EmptyString
    /\ exists res st' t,
         scan_loop net (Line text :: rest) st
         = (res, st',
            EvPrint [Txt "[SCAN] RFID Scanned: "; Txt (strip text)]
            :: EvPrint [Txt "[INFO] Sending verification request for RFID=";
                        Txt (strip text); Txt "..."]
            :: EvPost VERIFY_RFID_URL (uid_payload (strip text)) REQUEST_TIMEOUT
            :: t).
Proof.
  intros net text rest st Hblank.
  pose proof (strip_not_blank text Hblank) as Hne. split; [exact Hne|].
  apply String.eqb_neq in Hne.
  cbn [scan_loop]. rewrite Hne. unfold bind at 1, print, emit. unfold bind at 1.
  destruct (validate_rfid_starts (calm 0%nat) net (strip text) st)
    as (res & st1 & t & ->).
  destruct res as [[]|e]; [|do 3 eexists; reflexivity].
  destruct (scan_loop (sched := fun i => calm (S i)) net rest st1) as [[r2 st2] t2].
  do 3 eexists. reflexivity.
Qed.

(** X9: an exception leaving [validate_rfid] ends the loop with that
    exception; the lines after it are never read. *)
Theorem X9_validation_error_ends_loop :
  forall net text rest st e st1 t1,
    strip text <> EmptyString ->
    validate_rfid net (strip text) st = (Raised e, st1, t1) ->
    scan_loop net (Line text :: rest) st
      = (Raised e, st1, EvPrint [Txt "[SCAN] RFID Scanned: "; Txt (strip text)] :: t1)
    /\ forall rest', scan_loop net (Line text :: rest') st
                     = scan_loop net (Line text :: rest) st.
Proof.
  intros net text rest st e st1 t1 Hne Hrun.
  apply String.eqb_neq in Hne.
  assert (H : forall tail,
             scan_loop net (Line text :: tail) st
             = (Raised e, st1,
                EvPrint [Txt "[SCAN] RFID Scanned: "; Txt (strip text)] :: t1)).
  { intros tail. cbn [scan_loop]. rewrite Hne.
    unfold bind at 1, print, emit. unfold bind at 1.
    change (calm 0%nat) with no_signal. rewrite Hrun. reflexivity. }
  split; [apply H|]. intros rest'. rewrite !H. reflexivity.
Qed.

(** *** Order of the verify requests *)

Lemma verify_requests_app t1 t2 :
  verify_requests (t1 ++ t2) = verify_requests t1 ++ verify_requests t2.
Proof. unfold verify_requests. rewrite requests_sent_app. apply filter_app. Qed.

Lemma verify_requests_validate (sig : signals) net rfid_uid st :
  verify_requests (snd (validate_rfid (sig := sig) net rfid_uid st))
  = [(VERIFY_RFID_URL, uid_payload rfid_uid)].
Proof.
  pose proof (validate_rfid_paths sig net rfid_uid st) as H. unfold runs in H.
  destruct (validate_rfid (sig := sig) net rfid_uid st) as [[res st'] t].
  destruct H as (_ & Hreq & _).
  unfold verify_requests. cbn [snd].
  destruct Hreq as [-> | [-> _]]; cbn [filter fst];
    rewrite String.eqb_refl; [reflexivity|].
  replace (ACTIVATE_RFID_URL =? VERIFY_RFID_URL)%string with false
    by (vm_compute; reflexivity).
  reflexivity.
Qed.

Lemma verify_requests_scan_loop net stdin : forall (sched : schedule) st,
  exists k,
    verify_requests (snd (scan_loop (sched := sched) net stdin st))
    = map (fun uid => (VERIFY_RFID_URL, uid_payload uid)) (firstn k (scanned stdin)).
Proof.
  induction stdin as [|read rest IH]; intros sched st.
  - exists 0%nat. reflexivity.
  - destruct read as [text | e]; [|exists 0%nat; reflexivity].
    cbn [scan_loop scanned]. destruct (strip text =? "")%string; [apply IH|].
    unfold bind at 1, print, emit. unfold bind at 1.
    pose proof (verify_requests_validate (sched 0%nat) net (strip text) st) as Hv.
    destruct (validate_rfid (sig := sched 0%nat) net (strip text) st)
      as [[[[]|e] st1] t1]; cbn [snd] in Hv.
    + destruct (IH (fun i => sched (S i)) st1) as (k & Hk).
      destruct (scan_loop (sched := fun i => sched (S i)) net rest st1)
        as [[r2 st2] t2]. cbn [snd] in Hk |- *.
      exists (S k).
      change (verify_requests
                ([EvPrint [Txt "[SCAN] RFID Scanned: "; Txt (strip text)]]
                 ++ t1 ++ t2)
              = (VERIFY_RFID_URL, uid_payload (strip text))
                :: map (fun uid => (VERIFY_RFID_URL, uid_payload uid))
                     (firstn k (scanned rest))).
      rewrite !verify_requests_app, Hv, Hk. reflexivity.
    + exists 1%nat. cbn [snd firstn map].
      change (verify_requests
                ([EvPrint [Txt "[SCAN] RFID Scanned: "; Txt (strip text)]] ++ t1)
              = [(VERIFY_RFID_URL, uid_payload (strip text))]).
      rewrite verify_requests_app, Hv. reflexivity.
Qed.

(** X10: the verify requests of the loop are, in order and without
    repetition, those of the first identifiers read: one per non-blank line,
    each with the stripped line as payload. *)
Theorem X10_verify_requests_follow_input :
  forall net stdin st,
    exists k,
      verify_requests (snd (scan_loop net stdin st))
      = map (fun uid => (VERIFY_RFID_URL, uid_payload uid)) (firstn k (scanned stdin)).
Proof. intros net stdin st. apply verify_requests_scan_loop. Qed.

(** ** Instances *)

Lemma X2_door_opens_only_when_verified_witness :
  let guest := PyDict [("id", PyInt 7); ("name", PyStr "Jo")] in
  let d := [("rfid", PyDict [("status", PyStr "active")]); ("guest", guest)] in
  let body := [("success", PyBool true); ("data", PyDict d)] in
  let net := {| session_post := fun _ _ _ => replied 200 (Some (PyDict body));
                json_error_is_request_exception := true |} in
  let st := {| relay := LOW; requests := 0 |} in
  door_engaged (snd (validate_rfid net "A1" st)) = true
  /\ exists resp fields,
       session_post net 0%nat VERIFY_RFID_URL (uid_payload "A1") = Responded resp
       /\ status_code resp = 200
       /\ json_body resp = Some (PyDict fields)
       /\ truthy (dict_get_default fields "success" PyNone) = true.
Proof.
  intros guest d body net st. split; [reflexivity|].
  exact (proj1 (X2_door_opens_only_when_verified net "A1" st
                  (fst (fst (validate_rfid net "A1" st)))
                  (snd (fst (validate_rfid net "A1" st)))
                  (snd (validate_rfid net "A1" st))
                  eq_refl eq_refl)).
Defined.

Lemma X4_activate_rfid_if_assigned_contract_witness :
  let net := {| session_post := fun _ _ _ => replied 500 None;
                json_error_is_request_exception := true |} in
  let st := {| relay := LOW; requests := 1 |} in
  (exists st' t,
     activate_rfid_if_assigned net "A1" (PyStr "active") st
       = (Returned (PyStr "active"), st', t))
  /\ (exists st' t,
        activate_rfid_if_assigned net "A1" (PyStr "assigned") st
          = (Returned PyNone, st', t)).
Proof.
  intros net st. split.
  - destruct (X4_activate_rfid_if_assigned_contract net "A1" (PyStr "active") st)
      as (res & st' & t & Hrun & _ & _ & Hpass & _).
    destruct (Hpass eq_refl) as (-> & _). exists st', t. exact Hrun.
  - destruct (X4_activate_rfid_if_assigned_contract net "A1" (PyStr "assigned") st)
      as (res & st' & t & Hrun & _ & _ & _ & Hassigned).
    destruct (Hassigned eq_refl) as (_ & _ & Hfail & _).
    rewrite (Hfail eq_refl (fun H => eq_refl)) in Hrun.
    exists st', t. exact Hrun.
Defined.

Lemma X8_nonblank_line_is_verified_witness :
  strip " A1 " <> EmptyString.
Proof.
  exact (proj1 (X8_nonblank_line_is_verified
                  {| session_post := fun _ _ _ => replied 404 None;
                     json_error_is_request_exception := true |}
                  " A1 " [] {| relay := LOW; requests := 0 |} eq_refl)).
Defined.

Lemma X9_validation_error_ends_loop_witness :
  let net := {| session_post := fun _ _ _ => replied 403 (Some (PyStr "Forbidden"));
                json_error_is_request_exception := true |} in
  let st := {| relay := LOW; requests := 0 |} in
  fst (fst (scan_loop net [Line "C3"; Line "D4"] st)) = Raised AttributeError.
Proof.
  intros net st.
  destruct (X9_validation_error_ends_loop net "C3" [Line "D4"] st AttributeError
              (snd (fst (validate_rfid net "C3" st)))
              (snd (validate_rfid net "C3" st))) as [Hloop _].
  - cbn. discriminate.
  - reflexivity.
  - rewrite Hloop. reflexivity.
Defined.

Lemma X5_flash_relay_log_witness :
  let st := {| relay := LOW; requests := 0 |} in
  (exists t,
     flash_relay 6 150 st = (Returned tt, st, t)
     /\ sleep_total t = 1800
     /\ relay_writes t = [HIGH; LOW; HIGH; LOW; HIGH; LOW; HIGH; LOW; HIGH; LOW; HIGH; LOW])
  /\ fst (flash_relay 1 (-150) st)
     = (Raised ValueError, {| relay := HIGH; requests := 0 |})
  /\ fst (flash_relay (sig := fun k => (k =? 0)%nat) 6 150 st)
     = (Raised KeyboardInterrupt, {| relay := HIGH; requests := 0 |}).
Proof.
  intros st. destruct X5_flash_relay_log as (Hrun & Hneg & Hcut). split; [|split].
  - destruct (Hrun no_signal 6%nat 150 st) as (t & Ht & Hsleep & Hwrites & _).
    + lia.
    + reflexivity.
    + exists t. repeat split; assumption.
  - rewrite (Hneg no_signal 0%nat (-150) st) by lia. reflexivity.
  - rewrite (Hcut (fun k => (k =? 0)%nat) 5%nat 150 st) by (lia || reflexivity).
    reflexivity.
Defined.
